(** * GPS extraction from LRV metadata: a model of [lrv_batch_analyzer.py]

    The development embeds the text-parsing core of the analyzer
    ([parse_coordinate], [parse_gps_time], the line loop of
    [extract_gps_data]) and the control flow of [main], and proves the
    properties the specification states about them.

    Conventions of the embedding.
    - A Python [str] is a list of characters; a character is a code point in
      the range U+0000 .. U+00FF (Rocq's [ascii]).  In that range the
      whitespace of [str.strip], [str.split] and the regular expression class
      [\s] is the same set, and [\d] is the ten ASCII digits.
    - A Python [int] is a [Z]; a Python [float] is an IEEE 754 binary64
      number, Rocq's primitive [float].  Conversions between them round to
      nearest, ties to even, as CPython does.
    - A raised exception is a value of [result]; [try ... except] is a
      pattern match on it.
    - The dictionaries that [extract_gps_data] builds and mutates live in a
      store (a list indexed by location); [current_point] and the elements of
      [gps_data] are locations, so that aliasing is visible. *)

From Stdlib Require Import ZArith Ascii String List Lia Bool.
From Stdlib Require Import Floats.PrimFloat Floats.FloatOps Floats.SpecFloat.
From Stdlib Require Import Sorting.Sorted.
From stdpp Require Import base list.
Import ListNotations.

Set Default Proof Using "Type".
Set Warnings "-inexact-float".

Open Scope Z_scope.

(* ================================================================= *)
(** ** Exceptions *)

Inductive exn : Type :=
| IndexError      (* a subscript out of range, as in [s.split(':', 1)[1]] *)
| ValueError      (* [float("1.2.3")], [strptime] on a bad string *)
| OverflowError.  (* an [int] too large for a [float] *)

Inductive result (A : Type) : Type :=
| Ok (a : A)
| Raise (e : exn).
Arguments Ok {A} a.
Arguments Raise {A} e.

Definition rbind {A B} (r : result A) (f : A -> result B) : result B :=
  match r with
  | Ok a => f a
  | Raise e => Raise e
  end.

Notation "'do' x <- r ; k" := (rbind r (fun x => k))
  (at level 10, x name, r at level 100, k at level 200).

(* ================================================================= *)
(** ** Strings *)

Definition str : Type := list ascii.

Definition lit (s : string) : str := list_ascii_of_string s.

Definition code (c : ascii) : nat := nat_of_ascii c.

(** The character [U+0022], the double quote. *)
Definition dquote : ascii := ascii_of_nat 34.

Definition chr_eqb (a b : ascii) : bool := Ascii.eqb a b.

(** [str.isspace] on one character: TAB, LF, VT, FF, CR, the four
    separators U+001C .. U+001F, SPACE, NEL (U+0085) and NBSP (U+00A0). *)
Definition isspace (c : ascii) : bool :=
  let n := code c in
  ((9 <=? n)%nat && (n <=? 13)%nat) || ((28 <=? n)%nat && (n <=? 32)%nat)
  || (n =? 133)%nat || (n =? 160)%nat.

(** The class [\d]. *)
Definition isdigit (c : ascii) : bool :=
  let n := code c in (48 <=? n)%nat && (n <=? 57)%nat.

(** The whitespace [float] and [int] skip around a numeral: as [isspace]
    without the four separators U+001C .. U+001F. *)
Definition isspace_num (c : ascii) : bool :=
  let n := code c in
  ((9 <=? n)%nat && (n <=? 13)%nat) || (n =? 32)%nat
  || (n =? 133)%nat || (n =? 160)%nat.

Fixpoint lstrip_by (sp : ascii -> bool) (s : str) : str :=
  match s with
  | [] => []
  | c :: s' => if sp c then lstrip_by sp s' else s
  end.

Definition rstrip_by (sp : ascii -> bool) (s : str) : str :=
  rev (lstrip_by sp (rev s)).

Definition strip_by (sp : ascii -> bool) (s : str) : str :=
  rstrip_by sp (lstrip_by sp s).

(** [s.lstrip()], [s.rstrip()] and [s.strip()] *)
Abbreviation lstrip := (lstrip_by isspace).
Abbreviation rstrip := (rstrip_by isspace).
Abbreviation strip := (strip_by isspace).

Fixpoint starts_with (p s : str) : bool :=
  match p, s with
  | [], _ => true
  | _ :: _, [] => false
  | a :: p', b :: s' => chr_eqb a b && starts_with p' s'
  end.

(** [needle in s] *)
Fixpoint contains (needle s : str) : bool :=
  starts_with needle s ||
  match s with
  | [] => false
  | _ :: s' => contains needle s'
  end.

(** [c in s] for a single character. *)
Definition has_char (c : ascii) (s : str) : bool := existsb (chr_eqb c) s.

(** The text before the first [c], and the text after it when there is
    one: the two parts of [s.split(c, 1)]. *)
Fixpoint break_at (c : ascii) (s : str) : str * option str :=
  match s with
  | [] => ([], None)
  | a :: s' =>
      if chr_eqb c a then ([], Some s')
      else let '(h, t) := break_at c s' in (a :: h, t)
  end.

(** [s.split(c, 1)[1]] *)
Definition split1_snd (c : ascii) (s : str) : result str :=
  match snd (break_at c s) with
  | Some t => Ok t
  | None => Raise IndexError
  end.

(** [s.split(c)[0]] *)
Definition split_fst (c : ascii) (s : str) : str := fst (break_at c s).

(** [s.split(c)], which always has at least one element. *)
Fixpoint split_on (c : ascii) (s : str) : list str :=
  match s with
  | [] => [[]]
  | a :: s' =>
      if chr_eqb c a then [] :: split_on c s'
      else match split_on c s' with
           | [] => [[a]]
           | h :: t => (a :: h) :: t
           end
  end.

(** [s.replace(c, '')] *)
Definition remove_char (c : ascii) (s : str) : str :=
  List.filter (fun a => negb (chr_eqb c a)) s.

(** The first word of [s.split()], the split on runs of whitespace;
    [s.split()[0]] raises [IndexError] when there is none. *)
Fixpoint take_word (s : str) : str :=
  match s with
  | [] => []
  | c :: s' => if isspace c then [] else c :: take_word s'
  end.

Definition first_word (s : str) : result str :=
  match lstrip s with
  | [] => Raise IndexError
  | w => Ok (take_word w)
  end.

Definition lower_chr (c : ascii) : ascii :=
  let n := code c in
  if ((65 <=? n)%nat && (n <=? 90)%nat)
     || ((192 <=? n)%nat && (n <=? 222)%nat && negb (n =? 215)%nat)
  then ascii_of_nat (n + 32) else c.

(** [s.lower()] *)
Definition lower (s : str) : str := map lower_chr s.

(** [s.endswith(p)] *)
Definition ends_with (p s : str) : bool := starts_with (rev p) (rev s).

(* ================================================================= *)
(** ** Numbers *)

Definition digit_val (c : ascii) : Z := Z.of_nat (code c) - 48.

(** The value of a run of decimal digits read after the prefix [acc]. *)
Fixpoint digits_val (acc : Z) (s : str) : Z :=
  match s with
  | [] => acc
  | c :: s' => digits_val (10 * acc + digit_val c) s'
  end.

(** [int(s)] on a string that matched [\d+]. *)
Definition int_of_digits (s : str) : Z := digits_val 0 s.

(** The binary64 number nearest to the integer [n]; infinite when [n] is
    beyond the range. *)
Definition binary64_of_Z (n : Z) : float :=
  SF2Prim (binary_normalize prec emax n 0 false).

(** The binary64 number nearest to [n / d]. *)
Definition binary64_of_ratio (n d : positive) : float :=
  SF2Prim (SFdiv prec emax (S754_finite false n 0) (S754_finite false d 0)).

(** The conversion of an [int] operand in mixed arithmetic, [float(n)]:
    CPython raises [OverflowError] when the rounded value is not finite. *)
Definition float_of_int (n : Z) : result float :=
  let f := binary64_of_Z n in
  if is_infinity f then Raise OverflowError else Ok f.

(** [n / d] on two non-negative [int]s with [d] positive: true division,
    correctly rounded, [OverflowError] when the quotient is too large. *)
Definition int_truediv (n : Z) (d : positive) : result float :=
  match n with
  | Z0 => Ok 0%float
  | Zpos p =>
      let f := binary64_of_ratio p d in
      if is_infinity f then Raise OverflowError else Ok f
  | Zneg p =>
      let f := binary64_of_ratio p d in
      if is_infinity f then Raise OverflowError else Ok (- f)%float
  end.

(** [float(s)]: surrounding whitespace is dropped, a sign may come first,
    then [inf], [infinity] or [nan] in any case, or a decimal numeral with
    an optional fraction and exponent, its digits possibly separated by
    single underscores.  Anything else raises [ValueError]. *)

Fixpoint digitpart_tail (s : str) : str * str :=
  match s with
  | [] => ([], [])
  | c :: s' =>
      if isdigit c then let '(d, r) := digitpart_tail s' in (c :: d, r)
      else if chr_eqb c "_" then
        match s' with
        | c2 :: s'' =>
            if isdigit c2 then let '(d, r) := digitpart_tail s'' in (c2 :: d, r)
            else ([], s)
        | [] => ([], s)
        end
      else ([], s)
  end.

Definition digitpart (s : str) : option (str * str) :=
  match s with
  | c :: s' =>
      if isdigit c then let '(d, r) := digitpart_tail s' in Some (c :: d, r)
      else None
  | [] => None
  end.

(** The exponent part, which must reach the end of the string. *)
Definition exponent (s : str) : option Z :=
  match s with
  | [] => Some 0
  | c :: s' =>
      if chr_eqb c "e" || chr_eqb c "E" then
        let '(neg, s'') :=
          match s' with
          | x :: t => if chr_eqb x "-" then (true, t)
                      else if chr_eqb x "+" then (false, t) else (false, s')
          | [] => (false, s')
          end in
        match digitpart s'' with
        | Some (d, []) => Some (if neg then - int_of_digits d else int_of_digits d)
        | _ => None
        end
      else None
  end.

(** The number [n * 10 ^ e], correctly rounded. *)
Definition binary64_of_decimal (n e : Z) : float :=
  match n with
  | Zpos p =>
      if 0 <=? e then binary64_of_Z (n * 10 ^ e)
      else binary64_of_ratio p (Z.to_pos (10 ^ (- e)))
  | _ => 0%float
  end.

Definition floatnumber (s : str) : option float :=
  let finish (ip fp rest : str) :=
    match exponent rest with
    | Some e =>
        Some (binary64_of_decimal (int_of_digits (ip ++ fp))
                                  (e - Z.of_nat (length fp)))
    | None => None
    end in
  match digitpart s with
  | Some (ip, r) =>
      match r with
      | c :: r' =>
          if chr_eqb c "." then
            match digitpart r' with
            | Some (fp, r2) => finish ip fp r2
            | None => finish ip [] r'
            end
          else finish ip [] r
      | [] => finish ip [] r
      end
  | None =>
      match s with
      | c :: r' =>
          if chr_eqb c "." then
            match digitpart r' with
            | Some (fp, r2) => finish [] fp r2
            | None => None
            end
          else None
      | [] => None
      end
  end.

Definition str_eqb (a b : str) : bool :=
  (length a =? length b)%nat && starts_with a b.

Definition absfloatvalue (s : str) : option float :=
  let l := lower s in
  if str_eqb l (lit "inf") || str_eqb l (lit "infinity") then Some infinity
  else if str_eqb l (lit "nan") then Some nan
  else floatnumber s.

Definition py_float (s : str) : result float :=
  let t := strip_by isspace_num s in
  let '(neg, body) :=
    match t with
    | c :: r => if chr_eqb c "-" then (true, r)
                else if chr_eqb c "+" then (false, r) else (false, t)
    | [] => (false, t)
    end in
  match absfloatvalue body with
  | Some f => Ok (if neg then - f else f)%float
  | None => Raise ValueError
  end.

(* ================================================================= *)
(** ** Regular expressions

    The fragment of Python's [re] the program and [strptime] use, with the
    matching order of a backtracking engine: a greedy repetition tries the
    longest run first, an alternation its branches from left to right, and
    the first way that lets the rest of the pattern match is the one taken. *)

Inductive regex : Type :=
| Eps
| Chr (c : ascii)
| Cls (p : ascii -> bool)
| Seq (r1 r2 : regex)
| Alt (r1 r2 : regex)
| Star (r : regex)
| Grp (i : nat) (r : regex).

Definition Plus (r : regex) : regex := Seq r (Star r).

(** The text of the groups matched so far, the latest first. *)
Definition groups : Type := list (nat * str).

Fixpoint group (g : groups) (i : nat) : str :=
  match g with
  | [] => []
  | (j, m) :: g' => if (i =? j)%nat then m else group g' i
  end.

(** The iterations of a greedy [r*] after the text [acc]: one more match of
    the body when there is one that lets the rest succeed, else none.  The
    bound [n] is the length of the text, and each iteration consumes some. *)
Fixpoint star_loop {A : Type}
    (body : str -> groups -> (str -> str -> groups -> option A) -> option A)
    (k : str -> str -> groups -> option A)
    (n : nat) (acc s : str) (g : groups) : option A :=
  match n with
  | O => k acc s g
  | S n' =>
      match body s g (fun m s' g' =>
              match m with
              | [] => None
              | _ :: _ => star_loop body k n' (acc ++ m) s' g'
              end) with
      | Some a => Some a
      | None => k acc s g
      end
  end.

(** [rmatch r s g k]: match [r] at the start of [s]; the continuation [k]
    receives the text matched, the text left and the groups, and a [None]
    from it makes the engine try its next alternative. *)
Fixpoint rmatch {A : Type} (r : regex) (s : str) (g : groups)
    (k : str -> str -> groups -> option A) : option A :=
  match r with
  | Eps => k [] s g
  | Chr c =>
      match s with
      | a :: s' => if chr_eqb c a then k [a] s' g else None
      | [] => None
      end
  | Cls p =>
      match s with
      | a :: s' => if p a then k [a] s' g else None
      | [] => None
      end
  | Seq r1 r2 =>
      rmatch r1 s g (fun m1 s1 g1 =>
        rmatch r2 s1 g1 (fun m2 s2 g2 => k (m1 ++ m2) s2 g2))
  | Alt r1 r2 =>
      match rmatch r1 s g k with
      | Some a => Some a
      | None => rmatch r2 s g k
      end
  | Star r' => star_loop (rmatch r') k (length s) [] s g
  | Grp i r' => rmatch r' s g (fun m s' g' => k m s' ((i, m) :: g'))
  end.

(** What [re.match] returns on success: the text matched, the text after
    it and the groups. *)
Record re_result : Type := MkMatch {
  matched : str;
  unmatched : str;
  captures : groups
}.

(** [re.match(r, s)]: anchored at the start of [s] only. *)
Definition re_match (r : regex) (s : str) : option re_result :=
  rmatch r s [] (fun m rest g => Some (MkMatch m rest g)).

Definition in_range (lo hi : string) (c : ascii) : bool :=
  match lit lo, lit hi with
  | [l], [h] => (code l <=? code c)%nat && (code c <=? code h)%nat
  | _, _ => false
  end.

Definition one_of (cs : string) (c : ascii) : bool := has_char c (lit cs).

(** The language of a pattern, for stating what the engine finds. *)
Inductive matches : regex -> str -> Prop :=
| M_Eps : matches Eps []
| M_Chr c : matches (Chr c) [c]
| M_Cls (p : ascii -> bool) c : p c = true -> matches (Cls p) [c]
| M_Seq r1 r2 m1 m2 :
    matches r1 m1 -> matches r2 m2 -> matches (Seq r1 r2) (m1 ++ m2)
| M_AltL r1 r2 m : matches r1 m -> matches (Alt r1 r2) m
| M_AltR r1 r2 m : matches r2 m -> matches (Alt r1 r2) m
| M_Star0 r : matches (Star r) []
| M_StarS r m1 m2 :
    matches r m1 -> matches (Star r) m2 -> matches (Star r) (m1 ++ m2)
| M_Grp i r m : matches r m -> matches (Grp i r) m.

Infix "+++" := Seq (at level 60, right associativity).

(* ================================================================= *)
(** ** [parse_coordinate] *)

(** The class [[\d.]]. *)
Definition issec (c : ascii) : bool := isdigit c || chr_eqb c ".".

(** The pattern [(\d+)\s*deg\s*(\d+)'\s*([\d.]+)Q\s*([NSEW])], where [Q]
    stands for the double quote character. *)
Definition coord_regex : regex :=
  Grp 1 (Plus (Cls isdigit)) +++ Star (Cls isspace) +++
  Chr "d" +++ Chr "e" +++ Chr "g" +++ Star (Cls isspace) +++
  Grp 2 (Plus (Cls isdigit)) +++ Chr "'" +++ Star (Cls isspace) +++
  Grp 3 (Plus (Cls issec)) +++
  Chr dquote +++ Star (Cls isspace) +++
  Grp 4 (Cls (one_of "NSEW")).

(** [int(s)]: surrounding whitespace is dropped; used on digit runs only. *)
Definition py_int (s : str) : Z := int_of_digits (strip_by isspace_num s).

(** [direction in ['S', 'W']] *)
Definition south_or_west (direction : str) : bool :=
  str_eqb direction (lit "S") || str_eqb direction (lit "W").

Definition parse_coordinate (coord_str : str) : result float :=
  match re_match coord_regex coord_str with
  | Some m =>
      let degrees := py_int (group (captures m) 1) in
      let minutes := py_int (group (captures m) 2) in
      do seconds <- py_float (group (captures m) 3);
      let direction := group (captures m) 4 in
      do q <- int_truediv minutes 60;
      do d <- float_of_int degrees;
      let decimal := (d + q + seconds / 3600)%float in
      if south_or_west direction then Ok (- decimal)%float else Ok decimal
  | None => Ok 0%float
  end.

(* ================================================================= *)
(** ** [datetime.strptime] with the format ['%Y:%m:%d %H:%M:%S'] *)

Record DateTime : Type := MkDateTime {
  year : Z; month : Z; day : Z; hour : Z; minute : Z; second : Z
}.

Definition Digit : regex := Cls isdigit.

(** The patterns of the directives, as [_strptime] has them: [%m] is
    [1[0-2]|0[1-9]|[1-9]], [%d] is [3[0-1]|[1-2]\d|0[1-9]|[1-9]| [1-9]],
    [%H] is [2[0-3]|[0-1]\d|\d], [%M] is [[0-5]\d|\d] and [%S] is
    [6[0-1]|[0-5]\d|\d]. *)
Definition re_year : regex := Digit +++ Digit +++ Digit +++ Digit.
Definition re_month : regex :=
  Alt (Chr "1" +++ Cls (in_range "0" "2"))
 (Alt (Chr "0" +++ Cls (in_range "1" "9"))
      (Cls (in_range "1" "9"))).
Definition re_day : regex :=
  Alt (Chr "3" +++ Cls (in_range "0" "1"))
 (Alt (Cls (in_range "1" "2") +++ Digit)
 (Alt (Chr "0" +++ Cls (in_range "1" "9"))
 (Alt (Cls (in_range "1" "9"))
      (Chr " " +++ Cls (in_range "1" "9"))))).
Definition re_hour : regex :=
  Alt (Chr "2" +++ Cls (in_range "0" "3"))
 (Alt (Cls (in_range "0" "1") +++ Digit) Digit).
Definition re_minute : regex := Alt (Cls (in_range "0" "5") +++ Digit) Digit.
Definition re_second : regex :=
  Alt (Chr "6" +++ Cls (in_range "0" "1"))
 (Alt (Cls (in_range "0" "5") +++ Digit) Digit).

(** The pattern [_strptime] compiles the format to: each directive is a
    named group, the blank of the format is [\s+]. *)
Definition strptime_regex : regex :=
  Grp 1 re_year +++ Chr ":" +++ Grp 2 re_month +++ Chr ":" +++
  Grp 3 re_day +++ Plus (Cls isspace) +++
  Grp 4 re_hour +++ Chr ":" +++ Grp 5 re_minute +++ Chr ":" +++
  Grp 6 re_second.

Definition is_leap (y : Z) : bool :=
  (y mod 4 =? 0) && (negb (y mod 100 =? 0) || (y mod 400 =? 0)).

Definition days_in_month (y m : Z) : Z :=
  if m =? 2 then (if is_leap y then 29 else 28)
  else if (m =? 4) || (m =? 6) || (m =? 9) || (m =? 11) then 30
  else 31.

(** What the constructors [date(y, m, d)] and [datetime(..., s)] accept:
    a year from 1, a day of that month, a second below 60. *)
Definition valid_datetime (t : DateTime) : bool :=
  (1 <=? year t) && (year t <=? 9999) &&
  (1 <=? month t) && (month t <=? 12) &&
  (1 <=? day t) && (day t <=? days_in_month (year t) (month t)) &&
  (0 <=? hour t) && (hour t <=? 23) &&
  (0 <=? minute t) && (minute t <=? 59) &&
  (0 <=? second t) && (second t <=? 59).

Definition strptime (s : str) : result DateTime :=
  match re_match strptime_regex s with
  | None => Raise ValueError            (* does not match the format *)
  | Some m =>
      match unmatched m with
      | _ :: _ => Raise ValueError      (* unconverted data remains *)
      | [] =>
          let g := captures m in
          let t := MkDateTime (py_int (group g 1)) (py_int (group g 2))
                     (py_int (group g 3)) (py_int (group g 4))
                     (py_int (group g 5)) (py_int (group g 6)) in
          if valid_datetime t then Ok t else Raise ValueError
      end
  end.

(* ================================================================= *)
(** ** [parse_gps_time] *)

Definition parse_gps_time (time_str : str) : option DateTime :=
  let clean_time := strip (remove_char "Z" time_str) in
  let clean_time :=
    if has_char "." clean_time then split_fst "." clean_time
    else clean_time in
  match strptime clean_time with
  | Ok t => Some t
  | Raise _ => None                     (* except: return None *)
  end.

(* ================================================================= *)
(** ** The line loop of [extract_gps_data] *)

(** One dictionary built at line 88 of the source. *)
Record GpsPoint : Type := MkPoint {
  datetime : DateTime;
  latitude : float;
  longitude : float;
  altitude : float;
  speed : float;
  track : float
}.

Definition new_point (t : DateTime) : GpsPoint := MkPoint t 0 0 0 0 0.

Definition set_latitude (x : float) (p : GpsPoint) : GpsPoint :=
  MkPoint (datetime p) x (longitude p) (altitude p) (speed p) (track p).
Definition set_longitude (x : float) (p : GpsPoint) : GpsPoint :=
  MkPoint (datetime p) (latitude p) x (altitude p) (speed p) (track p).
Definition set_altitude (x : float) (p : GpsPoint) : GpsPoint :=
  MkPoint (datetime p) (latitude p) (longitude p) x (speed p) (track p).
Definition set_speed (x : float) (p : GpsPoint) : GpsPoint :=
  MkPoint (datetime p) (latitude p) (longitude p) (altitude p) x (track p).
Definition set_track (x : float) (p : GpsPoint) : GpsPoint :=
  MkPoint (datetime p) (latitude p) (longitude p) (altitude p) (speed p) x.

(** A location of the store: the identity of a dictionary. *)
Definition loc : Type := nat.

(** The variables of the loop.  [current_point = None] is the empty
    dictionary the loop starts from: it is false in a condition, has no
    key ['datetime'], and no branch ever writes to it. *)
Record seg_state : Type := MkState {
  store : list GpsPoint;
  gps_data : list loc;
  current_point : option loc
}.

Definition init_state : seg_state := MkState [] [] None.

(** [gps_data.append(current_point)] under the guard
    [current_point and 'datetime' in current_point]. *)
Definition save_current (st : seg_state) : seg_state :=
  match current_point st with
  | Some l => MkState (store st) (gps_data st ++ [l]) (current_point st)
  | None => st
  end.

(** [current_point = { 'datetime': t, 'latitude': 0.0, ... }]: a fresh
    dictionary. *)
Definition start_point (t : DateTime) (st : seg_state) : seg_state :=
  MkState (store st ++ [new_point t]) (gps_data st)
          (Some (length (store st))).

(** [current_point[key] = x], a write through the reference. *)
Definition update_current (f : GpsPoint -> GpsPoint) (l : loc)
    (st : seg_state) : seg_state :=
  MkState (alter f l (store st)) (gps_data st) (current_point st).

Definition GPS_DateTime : str := lit "GPS Date/Time".
Definition GPS_Latitude : str := lit "GPS Latitude".
Definition GPS_Longitude : str := lit "GPS Longitude".
Definition GPS_Altitude : str := lit "GPS Altitude".
Definition GPS_Speed : str := lit "GPS Speed".
Definition GPS_Track : str := lit "GPS Track".

(** [line.split(':', 1)[1].strip()] *)
Definition value_of (line : str) : result str :=
  do v <- split1_snd ":" line; Ok (strip v).

(** [try: x = e  except: x = 0.0] *)
Definition or_zero (r : result float) : float :=
  match r with
  | Ok x => x
  | Raise _ => 0%float
  end.

Definition is_blank (line : str) : bool :=
  match strip line with
  | [] => true
  | _ :: _ => false
  end.

(** The body of the [for] loop, lines 76 to 124. *)
Definition process_line (st : seg_state) (line : str) : result seg_state :=
  if is_blank line then Ok st
  else if contains GPS_DateTime line then
    let st := save_current st in
    do time_str <- value_of line;
    match parse_gps_time time_str with
    | Some parsed_time => Ok (start_point parsed_time st)
    | None => Ok st
    end
  else if contains GPS_Latitude line then
    match current_point st with
    | Some l =>
        do coord_str <- value_of line;
        do x <- parse_coordinate coord_str;
        Ok (update_current (set_latitude x) l st)
    | None => Ok st
    end
  else if contains GPS_Longitude line then
    match current_point st with
    | Some l =>
        do coord_str <- value_of line;
        do x <- parse_coordinate coord_str;
        Ok (update_current (set_longitude x) l st)
    | None => Ok st
    end
  else if contains GPS_Altitude line then
    match current_point st with
    | Some l =>
        let x := or_zero (do alt_str <- value_of line;
                          do w <- first_word alt_str;
                          py_float w) in
        Ok (update_current (set_altitude x) l st)
    | None => Ok st
    end
  else if contains GPS_Speed line then
    match current_point st with
    | Some l =>
        let x := or_zero (do speed_str <- value_of line; py_float speed_str) in
        Ok (update_current (set_speed x) l st)
    | None => Ok st
    end
  else if contains GPS_Track line then
    match current_point st with
    | Some l =>
        let x := or_zero (do track_str <- value_of line; py_float track_str) in
        Ok (update_current (set_track x) l st)
    | None => Ok st
    end
  else Ok st.

Fixpoint for_lines (st : seg_state) (lines : list str) : result seg_state :=
  match lines with
  | [] => Ok st
  | line :: rest => do st' <- process_line st line; for_lines st' rest
  end.

(** What the function hands to its caller: the list [gps_data] of
    references, together with the store they point into. *)
Record point_list : Type := MkPoints {
  pl_store : list GpsPoint;
  pl_refs : list loc
}.

Definition no_points : point_list := MkPoints [] [].

(** The dictionaries of the list, in order, as the caller reads them. *)
Definition points_of (r : point_list) : list GpsPoint :=
  omap (fun l => pl_store r !! l) (pl_refs r).

(** The loop followed by the last [append], lines 72 to 128: the
    Segmenter. *)
Definition segment (lines : list str) : result point_list :=
  do st <- for_lines init_state lines;
  let st := save_current st in
  Ok (MkPoints (store st) (gps_data st)).

(* ================================================================= *)
(** ** [extract_gps_data] *)

(** What [subprocess.run] did. *)
Inductive tool_outcome : Type :=
| Completed (returncode : Z) (stdout stderr : str)
| TimeoutExpired
| Failed.                      (* any other exception of the call *)

(** What the program prints, by the statement that prints it. *)
Inductive message : Type :=
| MsgAnalyzing (file : str)              (* line 56 *)
| MsgToolError (file : str)              (* line 68 *)
| MsgExtracted (n : nat)                 (* line 130 *)
| MsgTimeout (file : str)                (* line 134 *)
| MsgException (file : str)              (* line 137 *)
| MsgUsage                               (* lines 188, 189 *)
| MsgFolderNotFound (folder : str)       (* line 197 *)
| MsgNoExiftool                          (* lines 204, 205 *)
| MsgSingleFile (file : str)             (* line 210 *)
| MsgSearching (folder : str)            (* line 213 *)
| MsgNoLrvFiles                          (* line 217 *)
| MsgFound (n : nat)                     (* line 220 *)
| MsgCsvOutput (file : str)              (* line 153 *)
| MsgTotalPoints (n : nat)               (* line 184 *)
| MsgDone (processed found : nat) (file : str)   (* lines 238 to 240 *)
| MsgNoGpsData.                          (* line 242 *)

Definition newline : ascii := ascii_of_nat 10.

(** [result.stdout.strip().split('\n')] *)
Definition stdout_lines (stdout : str) : list str :=
  split_on newline (strip stdout).

Definition basename (path : str) : str :=
  match rev (split_on "/" path) with
  | last :: _ => last
  | [] => []
  end.

Definition extract_gps_data (lrv_file_path : str) (o : tool_outcome)
    : list message * point_list :=
  let hello := MsgAnalyzing (basename lrv_file_path) in
  match o with
  | Completed returncode stdout stderr =>
      if negb (returncode =? 0) then
        ([hello; MsgToolError lrv_file_path], no_points)
      else
        match segment (stdout_lines stdout) with
        | Ok r => ([hello; MsgExtracted (length (pl_refs r))], r)
        | Raise _ => ([hello; MsgException lrv_file_path], no_points)
        end
  | TimeoutExpired => ([hello; MsgTimeout lrv_file_path], no_points)
  | Failed => ([hello; MsgException lrv_file_path], no_points)
  end.

(* ================================================================= *)
(** ** [find_lrv_files], [write_csv] and [main] *)

Fixpoint str_leb (a b : str) : bool :=
  match a, b with
  | [], _ => true
  | _ :: _, [] => false
  | x :: a', y :: b' =>
      if (code x <? code y)%nat then true
      else if (code y <? code x)%nat then false
      else str_leb a' b'
  end.

Fixpoint insert_sorted (x : str) (l : list str) : list str :=
  match l with
  | [] => [x]
  | y :: l' => if str_leb x y then x :: l else y :: insert_sorted x l'
  end.

(** [sorted(l)] on strings; equal strings are indistinguishable. *)
Definition sorted (l : list str) : list str := fold_right insert_sorted [] l.

(** The world outside the process, as the program observes it.
    [walk folder] lists what [os.walk] visits: each file name with the path
    [os.path.join(root, file)]. *)
Record world : Type := MkWorld {
  path_exists : str -> bool;
  exiftool_available : bool;
  isfile : str -> bool;
  walk : str -> list (str * str);
  run_exiftool : str -> tool_outcome
}.

Definition is_lrv (name : str) : bool := ends_with (lit ".lrv") (lower name).

Definition find_lrv_files (w : world) (folder_path : str) : list str :=
  sorted (map snd (List.filter (fun e => is_lrv (fst e)) (walk w folder_path))).

(** One element of [all_data]. *)
Record file_data : Type := MkFileData {
  filename : str;
  gps_points : point_list
}.

(** A row handed to the CSV writer, before the numbers are formatted. *)
Definition csv_row : Type := (str * GpsPoint)%type.

Definition csv_rows (all_data : list file_data) : list csv_row :=
  flat_map (fun fd => map (fun p => (filename fd, p))
                          (points_of (gps_points fd))) all_data.

Inductive event : Type :=
| Print (m : message)
| WriteFile (output_file : str) (rows : list csv_row).

Definition write_csv (all_data : list file_data) (output_file : str)
    : list event :=
  let rows := csv_rows all_data in
  [Print (MsgCsvOutput output_file); WriteFile output_file rows;
   Print (MsgTotalPoints (length rows))].

(** The loop of lines 225 to 234: what it prints and the files it keeps. *)
Fixpoint process_files (w : world) (lrv_files : list str)
    : list event * list file_data :=
  match lrv_files with
  | [] => ([], [])
  | lrv_file :: rest =>
      let '(msgs, gps_points) := extract_gps_data lrv_file (run_exiftool w lrv_file) in
      let '(evs, all_data) := process_files w rest in
      (map Print msgs ++ evs,
       match pl_refs gps_points with
       | [] => all_data
       | _ :: _ => MkFileData (basename lrv_file) gps_points :: all_data
       end)
  end.

(** [main], with [sys.argv] and the world as inputs; the result is what the
    process did and its exit status ([sys.exit(1)] gives 1, a return from
    [main] gives 0). *)
Definition main (argv : list str) (w : world) : list event * Z :=
  match argv with
  | [] | [_] => ([Print MsgUsage], 1)
  | _ :: folder_path :: more =>
      let output_file :=
        match more with
        | f :: _ => f
        | [] => lit "lrv_gps_data.csv"
        end in
      if negb (path_exists w folder_path) then
        ([Print (MsgFolderNotFound folder_path)], 1)
      else if negb (exiftool_available w) then
        ([Print MsgNoExiftool], 1)
      else
        let '(ev1, lrv_files) :=
          if isfile w folder_path && is_lrv folder_path
          then ([Print (MsgSingleFile folder_path)], [folder_path])
          else ([Print (MsgSearching folder_path)],
                find_lrv_files w folder_path) in
        match lrv_files with
        | [] => (ev1 ++ [Print MsgNoLrvFiles], 1)
        | _ :: _ =>
            let '(ev2, all_data) := process_files w lrv_files in
            let ev := ev1 ++ [Print (MsgFound (length lrv_files))] ++ ev2 in
            match all_data with
            | _ :: _ =>
                (ev ++ write_csv all_data output_file ++
                 [Print (MsgDone (length all_data) (length lrv_files)
                                 output_file)], 0)
            | [] => (ev ++ [Print MsgNoGpsData], 0)
            end
        end
  end.

(* ================================================================= *)
(** ** Vocabulary of the statements *)

Definition digits (s : str) : bool := forallb isdigit s.
Definition blanks (s : str) : bool := forallb isspace s.
Definition nonempty (s : str) : bool :=
  match s with
  | [] => false
  | _ :: _ => true
  end.

(** The pieces of a coordinate text: the degrees, [deg], the minutes and
    an apostrophe, the seconds and a double quote, the direction letter,
    and the blanks between them. *)
Record coord_parts : Type := MkCoord {
  c_deg : str; c_ws1 : str; c_ws2 : str;
  c_min : str; c_ws3 : str;
  c_sec : str; c_ws4 : str;
  c_dir : ascii
}.

Definition coord_text (p : coord_parts) : str :=
  c_deg p ++ c_ws1 p ++ lit "deg" ++ c_ws2 p ++
  c_min p ++ lit "'" ++ c_ws3 p ++
  c_sec p ++ [dquote] ++ c_ws4 p ++ [c_dir p].

Definition coord_wf (p : coord_parts) : bool :=
  nonempty (c_deg p) && digits (c_deg p) && blanks (c_ws1 p) &&
  blanks (c_ws2 p) && nonempty (c_min p) && digits (c_min p) &&
  blanks (c_ws3 p) && nonempty (c_sec p) && forallb issec (c_sec p) &&
  blanks (c_ws4 p) && one_of "NSEW" (c_dir p).

(** [s] is a coordinate text, from its first character to its last. *)
Definition coord_shape (s : str) : Prop :=
  exists p, coord_wf p = true /\ s = coord_text p.


(** [YYYY:MM:DD HH:MM:SS], the digits being any digits. *)
Definition timestamp_body (b : str) : bool :=
  match b with
  | [y1; y2; y3; y4; c1; m1; m2; c2; d1; d2; sp; h1; h2; c3; n1; n2; c4; s1; s2] =>
      digits [y1; y2; y3; y4; m1; m2; d1; d2; h1; h2; n1; n2; s1; s2] &&
      chr_eqb c1 ":" && chr_eqb c2 ":" && chr_eqb sp " " &&
      chr_eqb c3 ":" && chr_eqb c4 ":"
  | _ => false
  end.

(** The text [parse_gps_time] hands to [strptime]. *)
Definition clean_time (time_str : str) : str :=
  let t := strip (remove_char "Z" time_str) in
  if has_char "." t then split_fst "." t else t.

(** The number two digits write. *)
Definition two_digits (a b : ascii) : Z := 10 * digit_val a + digit_val b.

(** The six numbers of a text [YYYY:MM:DD HH:MM:SS]. *)
Definition body_fields (b : str) : DateTime :=
  match b with
  | [y1; y2; y3; y4; _; m1; m2; _; d1; d2; _; h1; h2; _; n1; n2; _; s1; s2] =>
      MkDateTime (int_of_digits [y1; y2; y3; y4]) (two_digits m1 m2)
                 (two_digits d1 d2) (two_digits h1 h2) (two_digits n1 n2)
                 (two_digits s1 s2)
  | _ => MkDateTime 0 0 0 0 0 0
  end.

(** A continuation of the engine that fails on a text starting with a
    digit. *)
Definition digit_stops {A : Type} (K : str -> str -> groups -> option A) : Prop :=
  forall m c s g, isdigit c = true -> K m (c :: s) g = None.

(** The branch of the loop body a line takes. *)
Inductive marker : Type :=
| MDateTime | MLatitude | MLongitude | MAltitude | MSpeed | MTrack.

Definition marker_of (line : str) : option marker :=
  if is_blank line then None
  else if contains GPS_DateTime line then Some MDateTime
  else if contains GPS_Latitude line then Some MLatitude
  else if contains GPS_Longitude line then Some MLongitude
  else if contains GPS_Altitude line then Some MAltitude
  else if contains GPS_Speed line then Some MSpeed
  else if contains GPS_Track line then Some MTrack
  else None.

(** The values the three guarded branches store. *)
Definition altitude_of (line : str) : float :=
  or_zero (do alt_str <- value_of line; do w <- first_word alt_str; py_float w).
Definition number_of (line : str) : float :=
  or_zero (do v <- value_of line; py_float v).

(** A [GPS Date/Time] line whose time value parses to [t]. *)
Definition datetime_line (line : str) (t : DateTime) : Prop :=
  marker_of line = Some MDateTime /\
  exists v, value_of line = Ok v /\ parse_gps_time v = Some t.

(** A [GPS Date/Time] line whose time value does not parse. *)
Definition bad_datetime_line (line : str) : Prop :=
  marker_of line = Some MDateTime /\
  exists v, value_of line = Ok v /\ parse_gps_time v = None.

(** A line of the branch [mk] whose value is the coordinate [x]. *)
Definition coord_line (mk : marker) (line : str) (x : float) : Prop :=
  marker_of line = Some mk /\
  exists v, value_of line = Ok v /\ parse_coordinate v = Ok x.

(** A line after which the loop goes on with the same point under
    construction: it raises nothing and, when it is a [GPS Date/Time]
    line, its time does not parse. *)
Definition quiet_line (line : str) : Prop :=
  match marker_of line with
  | Some MDateTime => exists v, value_of line = Ok v /\ parse_gps_time v = None
  | Some MLatitude | Some MLongitude =>
      exists v x, value_of line = Ok v /\ parse_coordinate v = Ok x
  | _ => True
  end.

Definition is_datetime_marker (line : str) : bool :=
  match marker_of line with
  | Some MDateTime => true
  | _ => false
  end.

(** The number of [GPS Date/Time] lines among [lines]. *)
Definition count_datetime (lines : list str) : nat :=
  length (List.filter is_datetime_marker lines).

(** Lines that take no branch of the loop body. *)
Definition unmarked (lines : list str) : Prop :=
  Forall (fun line => marker_of line = None) lines.


(** Every reference of the state points into the store. *)
Definition wf_state (st : seg_state) : Prop :=
  (forall l, current_point st = Some l -> (l < length (store st))%nat) /\
  Forall (fun l => (l < length (store st))%nat) (gps_data st).

Definition is_print (e : event) : bool :=
  match e with
  | Print _ => true
  | WriteFile _ _ => false
  end.

(** ** Auxiliary notions of the proofs *)

(** A text with no blank at either end: what [strip] leaves alone. *)
Definition trimmed_by (sp : ascii -> bool) (s : str) : Prop :=
  match s, rev s with
  | c :: _, d :: _ => sp c = false /\ sp d = false
  | _, _ => True
  end.

Abbreviation trimmed := (trimmed_by isspace).

(** A run of the class [p] cannot go on into [rest]. *)
Definition stops (p : ascii -> bool) (rest : str) : Prop :=
  match rest with
  | [] => True
  | c :: _ => p c = false
  end.

(* ================================================================= *)
(** ** Sample inputs *)

(** The coordinate of the source's comment: 35 degrees, 37 minutes and
    35.50 seconds north. *)
Definition tokyo_lat : coord_parts :=
  MkCoord (lit "35") (lit " ") (lit " ") (lit "37") (lit " ")
          (lit "35.50") (lit " ") "N".

Definition west_longitude : coord_parts :=
  MkCoord (lit "135") (lit " ") (lit " ") (lit "30") (lit " ")
          (lit "0") (lit " ") "W".

(** The same text without the double quote after the seconds. *)
Definition missing_quote : str := lit "35 deg 37' 35.50 N".

(** A direction letter that is none of N, S, E, W. *)
Definition wrong_direction : str :=
  lit "35 deg 37' 35.50" ++ [dquote] ++ lit " X".

(** Degrees that are not a number. *)
Definition non_numeric : str :=
  lit "ab deg 37' 35.50" ++ [dquote] ++ lit " N".

(** Seconds with two decimal points: the class of the pattern accepts
    them, [float] does not. *)
Definition two_points : str :=
  lit "35 deg 37' 3.5.5" ++ [dquote] ++ lit " N".



(** Lines of the tool's output. *)

Definition line_dt1 : str := lit "GPS Date/Time                   : 2025:06:30 02:13:56.9Z".
Definition line_dt2 : str := lit "GPS Date/Time                   : 2025:06:30 02:13:57.9Z".
Definition line_dt_bad : str := lit "GPS Date/Time                   : 0000:00:00 00:00:00Z".
Definition line_lat1 : str :=
  lit "GPS Latitude                    : 35 deg 37' 35.50" ++ [dquote] ++ lit " N".
Definition line_lon1 : str :=
  lit "GPS Longitude                   : 139 deg 44' 28.50" ++ [dquote] ++ lit " E".
Definition line_alt1 : str := lit "GPS Altitude                    : 12.5 m".
Definition line_spd1 : str := lit "GPS Speed                       : 1.25".
Definition line_trk1 : str := lit "GPS Track                       : 270.5".
Definition line_lat2 : str :=
  lit "GPS Latitude                    : 36 deg 0' 0" ++ [dquote] ++ lit " S".
Definition line_lon2 : str :=
  lit "GPS Longitude                   : 140 deg 30' 0" ++ [dquote] ++ lit " E".
Definition line_alt2 : str := lit "GPS Altitude                    : unknown".
Definition line_spd2 : str := lit "GPS Speed                       : 2.5".
Definition line_trk2 : str := lit "GPS Track                       : 90".

(** A latitude whose seconds have two decimal points. *)
Definition line_lat_two_points : str :=
  lit "GPS Latitude                    : 35 deg 37' 3.5.5" ++ [dquote] ++ lit " N".

Definition time1 : DateTime := MkDateTime 2025 6 30 2 13 56.
Definition time2 : DateTime := MkDateTime 2025 6 30 2 13 57.

(** The text of some lines, each ended by a newline. *)
Definition unlines (lines : list str) : str :=
  concat (map (fun line => line ++ [newline]) lines).

(** A world with one directory holding one LRV file, on which the tool
    succeeds and prints no GPS line. *)
Definition world_without_gps : world :=
  MkWorld (fun _ => true) true (fun _ => false)
          (fun _ => [(lit "VID_001.lrv", lit "DCIM/VID_001.lrv")])
          (fun _ => Completed 0 (lit "File Name : VID_001.lrv") []).


(* ================================================================= *)
(** ** Vocabulary of the further properties *)

(** One [GPS Date/Time] line, the time it parses to, and the lines up to
    the next [GPS Date/Time] line. *)
Record seg_input : Type := MkSeg {
  seg_dt : str;
  seg_time : DateTime;
  seg_body : list str
}.

Definition seg_lines (sg : seg_input) : list str := seg_dt sg :: seg_body sg.

(** The marker line parses, and the lines of the body raise nothing and
    are no [GPS Date/Time] lines. *)
Definition seg_ok (sg : seg_input) : Prop :=
  datetime_line (seg_dt sg) (seg_time sg) /\
  Forall quiet_line (seg_body sg) /\ count_datetime (seg_body sg) = 0%nat.

(** The assignment a line performs on the point under construction; a
    line that takes no branch, or a [GPS Date/Time] line, performs none. *)
Definition line_effect (line : str) (p : GpsPoint) : GpsPoint :=
  match marker_of line with
  | Some MLatitude =>
      match (do v <- value_of line; parse_coordinate v) with
      | Ok x => set_latitude x p
      | Raise _ => p
      end
  | Some MLongitude =>
      match (do v <- value_of line; parse_coordinate v) with
      | Ok x => set_longitude x p
      | Raise _ => p
      end
  | Some MAltitude => set_altitude (altitude_of line) p
  | Some MSpeed => set_speed (number_of line) p
  | Some MTrack => set_track (number_of line) p
  | Some MDateTime | None => p
  end.

(** The point of a group: the dictionary of line 88 with the time of the
    group, then the assignments of the lines of the body, in order. *)
Definition point_of_seg (sg : seg_input) : GpsPoint :=
  fold_left (fun p line => line_effect line p) (seg_body sg)
            (new_point (seg_time sg)).

(** The characters a decimal numeral of [float] is made of. *)
Definition numeral_char (c : ascii) : bool :=
  isdigit c || one_of "._eE+-" c.


(** The files [main] hands to [extract_gps_data]: the path itself when it
    is an LRV file, else what [find_lrv_files] finds under it. *)
Definition lrv_inputs (w : world) (folder_path : str) : list str :=
  if isfile w folder_path && is_lrv folder_path then [folder_path]
  else find_lrv_files w folder_path.

(** What [extract_gps_data] returns for a file of the world. *)
Definition extracted (w : world) (lrv_file : str) : point_list :=
  snd (extract_gps_data lrv_file (run_exiftool w lrv_file)).

(** The file yields at least one point: the test [if gps_points]. *)
Definition has_points (w : world) (lrv_file : str) : bool :=
  match pl_refs (extracted w lrv_file) with
  | [] => false
  | _ :: _ => true
  end.

(** The points of a file as rows, under the file's base name. *)
Definition rows_of (w : world) (lrv_file : str) : list csv_row :=
  map (fun p => (basename lrv_file, p)) (points_of (extracted w lrv_file)).

(** The name of the output file: [sys.argv[2]] when there is one. *)
Definition output_name (argv : list str) : str :=
  nth 2 argv (lit "lrv_gps_data.csv").

(** A world with two LRV files under one directory and a file of another
    kind: the tool prints one point for the first, fails on the second. *)
Definition world_with_gps : world :=
  MkWorld (fun _ => true) true (fun _ => false)
          (fun _ => [(lit "VID_002.LRV", lit "DCIM/VID_002.LRV");
                     (lit "VID_001.lrv", lit "DCIM/VID_001.lrv");
                     (lit "VID_001.mp4", lit "DCIM/VID_001.mp4")])
          (fun path => if str_eqb path (lit "DCIM/VID_001.lrv")
                       then Completed 0 (unlines [line_dt1; line_lat1; line_lon1]) []
                       else Completed 1 [] (lit "File format error")).

(** ** Tactics *)

(** A fact about one character, by running through the 256 of them. *)
Ltac ascii_cases c :=
  destruct c as [[|] [|] [|] [|] [|] [|] [|] [|]]; vm_compute; try congruence; auto.

(** The ten cases of a digit, from the lemma [lem] that lists them. *)
Ltac digit_cases lem H :=
  apply lem in H; simpl in H;
  destruct H as [<-|[<-|[<-|[<-|[<-|[<-|[<-|[<-|[<-|[<-|[]]]]]]]]]]].

(** The branch of [process_line] that the marker of the line selects. *)
Ltac branch H :=
  unfold marker_of in H; unfold process_line;
  repeat match type of H with
         | context [if ?b then _ else _] => destruct b eqn:?; try discriminate H
         end.

(* ================================================================= *)
(** * Properties *)

(** ** Characters and strings *)

Lemma chr_eqb_eq (a b : ascii) : chr_eqb a b = true <-> a = b.
Proof. apply Ascii.eqb_eq. Qed.

Lemma chr_eqb_refl (a : ascii) : chr_eqb a a = true.
Proof. apply Ascii.eqb_refl. Qed.

Lemma lstrip_app_blanks (w s : str) :
  blanks w = true -> lstrip (w ++ s) = lstrip s.
Proof.
  induction w as [|c w IH]; simpl; [reflexivity|].
  intros H. apply andb_prop in H as [Hc Hw]. rewrite Hc. auto.
Qed.

Lemma lstrip_head (sp : ascii -> bool) (c : ascii) (s : str) :
  sp c = false -> lstrip_by sp (c :: s) = c :: s.
Proof. intros H. simpl. now rewrite H. Qed.

Lemma strip_trimmed (sp : ascii -> bool) (s : str) :
  trimmed_by sp s -> strip_by sp s = s.
Proof.
  unfold trimmed_by, strip_by. destruct s as [|c s]; [reflexivity|].
  destruct (rev (c :: s)) as [|d r] eqn:E.
  - intros _. apply (f_equal (@length _)) in E. rewrite length_rev in E. discriminate.
  - intros [Hc Hd]. rewrite lstrip_head by assumption.
    unfold rstrip_by. rewrite E. simpl. rewrite Hd. rewrite <- E. apply rev_involutive.
Qed.

Lemma digit_not_space (c : ascii) : isdigit c = true -> isspace c = false.
Proof. ascii_cases c. Qed.

Lemma issec_not_space (c : ascii) : issec c = true -> isspace c = false.
Proof. ascii_cases c. Qed.

Lemma dir_not_space (c : ascii) : one_of "NSEW" c = true -> isspace c = false.
Proof. ascii_cases c. Qed.

Lemma digit_not_space_num (c : ascii) : isdigit c = true -> isspace_num c = false.
Proof. ascii_cases c. Qed.

Lemma digits_trimmed (s : str) : digits s = true -> trimmed_by isspace_num s.
Proof.
  intros H. unfold trimmed_by. destruct s as [|c s]; [exact I|].
  destruct (rev (c :: s)) as [|d r] eqn:E; [exact I|].
  unfold digits in H. rewrite forallb_forall in H. split; apply digit_not_space_num, H.
  - now left.
  - apply in_rev. rewrite E. now left.
Qed.

Lemma py_int_digits (s : str) : digits s = true -> py_int s = int_of_digits s.
Proof. intros H. unfold py_int. now rewrite strip_trimmed by now apply digits_trimmed. Qed.

(** ** The matching engine *)

Section Engine.
Context {A : Type}.
Implicit Types (k : str -> str -> groups -> option A) (p : ascii -> bool).

Lemma stops_app p q (w rest : str) :
  forallb q w = true -> (forall c, q c = true -> p c = false) ->
  stops p rest -> stops p (w ++ rest).
Proof.
  destruct w as [|c w]; simpl; [auto|].
  intros H Hq _. apply andb_prop in H as [H _]. auto.
Qed.

Lemma star_loop_S body k n acc s g :
  star_loop (A:=A) body k (S n) acc s g =
  match body s g (fun m s' g' =>
          match m with
          | [] => None
          | _ :: _ => star_loop body k n (acc ++ m) s' g'
          end) with
  | Some a => Some a
  | None => k acc s g
  end.
Proof. reflexivity. Qed.

Lemma rmatch_cls_cons p (c : ascii) (s : str) g k :
  rmatch (Cls p) (c :: s) g k = if p c then k [c] s g else None.
Proof. reflexivity. Qed.

(** A greedy run of a class takes all of [w] when that lets the rest of
    the pattern match. *)
Lemma star_loop_cls_greedy p k (w : str) :
  forall n acc rest g a,
    forallb p w = true -> stops p rest -> (length w <= n)%nat ->
    k (acc ++ w) rest g = Some a ->
    star_loop (rmatch (Cls p)) k n acc (w ++ rest) g = Some a.
Proof.
  induction w as [|c w IH]; intros n acc rest g a Hw Hs Hn Hk.
  - rewrite app_nil_r in Hk. destruct n; simpl; [exact Hk|].
    destruct rest as [|c rest]; simpl; [exact Hk|].
    simpl in Hs. rewrite Hs. exact Hk.
  - simpl in Hw. apply andb_prop in Hw as [Hc Hw].
    destruct n as [|n]; [simpl in Hn; lia|].
    rewrite star_loop_S. cbn [app]. rewrite rmatch_cls_cons, Hc.
    rewrite (IH n (acc ++ [c]) rest g a); auto.
    + simpl in Hn. lia.
    + rewrite <- app_assoc. exact Hk.
Qed.

Lemma step_star p (R : regex) k (w rest : str) g a :
  forallb p w = true -> stops p rest ->
  rmatch R rest g (fun m2 s2 g2 => k (w ++ m2) s2 g2) = Some a ->
  rmatch (Star (Cls p) +++ R) (w ++ rest) g k = Some a.
Proof.
  intros Hw Hs Hk. cbn [rmatch].
  apply star_loop_cls_greedy; auto.
  rewrite length_app. lia.
Qed.

Lemma step_plus p (R : regex) k i (w rest : str) g a :
  nonempty w = true -> forallb p w = true -> stops p rest ->
  rmatch R rest ((i, w) :: g) (fun m2 s2 g2 => k (w ++ m2) s2 g2) = Some a ->
  rmatch (Grp i (Plus (Cls p)) +++ R) (w ++ rest) g k = Some a.
Proof.
  intros Hne Hw Hs Hk. destruct w as [|c w]; [discriminate|].
  simpl in Hw. apply andb_prop in Hw as [Hc Hw].
  cbn [Plus rmatch app]. rewrite Hc.
  apply star_loop_cls_greedy; auto.
  rewrite length_app. lia.
Qed.

Lemma step_chr (c : ascii) (R : regex) k (rest : str) g a :
  rmatch R rest g (fun m2 s2 g2 => k (c :: m2) s2 g2) = Some a ->
  rmatch (Chr c +++ R) (c :: rest) g k = Some a.
Proof. intros Hk. cbn [rmatch]. now rewrite chr_eqb_refl. Qed.

(** Whatever the engine finds is in the language of the pattern. *)
Lemma star_loop_sound (r : regex)
    (body : str -> groups -> (str -> str -> groups -> option A) -> option A) k :
  (forall s g k' a, body s g k' = Some a ->
     exists m s' g', s = m ++ s' /\ matches r m /\ k' m s' g' = Some a) ->
  forall n acc s g a,
    star_loop body k n acc s g = Some a ->
    exists m s' g', s = m ++ s' /\ matches (Star r) m /\
                    k (acc ++ m) s' g' = Some a.
Proof.
  intros Hbody. induction n as [|n IH]; intros acc s g a H.
  - simpl in H. exists [], s, g. rewrite app_nil_r. repeat split; auto. constructor.
  - rewrite star_loop_S in H. destruct (body s g _) as [a'|] eqn:E.
    + injection H as ->. apply Hbody in E as (m & s' & g' & -> & Hm & E).
      destruct m as [|c m]; [discriminate|].
      apply IH in E as (m2 & s2 & g2 & -> & Hm2 & E).
      exists ((c :: m) ++ m2), s2, g2. repeat split.
      * now rewrite app_assoc.
      * now constructor.
      * now rewrite <- app_assoc in E.
    + exists [], s, g. rewrite app_nil_r. repeat split; auto. constructor.
Qed.
End Engine.

Lemma rmatch_seq {A : Type} (r1 r2 : regex) (s : str) g
    (k : str -> str -> groups -> option A) :
  rmatch (r1 +++ r2) s g k =
  rmatch r1 s g (fun m1 s1 g1 => rmatch r2 s1 g1 (fun m2 s2 g2 => k (m1 ++ m2) s2 g2)).
Proof. reflexivity. Qed.

Lemma rmatch_chr_cons {A : Type} (c : ascii) (s : str) g
    (k : str -> str -> groups -> option A) :
  rmatch (Chr c) (c :: s) g k = k [c] s g.
Proof. cbn [rmatch]. now rewrite chr_eqb_refl. Qed.

Lemma rmatch_star {A : Type} (r : regex) (s : str) g
    (k : str -> str -> groups -> option A) :
  rmatch (Star r) s g k = star_loop (rmatch r) k (length s) [] s g.
Proof. reflexivity. Qed.

Lemma rmatch_sound (r : regex) :
  forall A (s : str) g (k : str -> str -> groups -> option A) a,
    rmatch r s g k = Some a ->
    exists m s' g', s = m ++ s' /\ matches r m /\ k m s' g' = Some a.
Proof.
  induction r as [|c|p|r1 IH1 r2 IH2|r1 IH1 r2 IH2|r IH|i r IH];
    intros A s g k a H; cbn [rmatch] in H.
  - exists [], s, g. repeat split; auto. constructor.
  - destruct s as [|x s]; [discriminate|].
    destruct (chr_eqb c x) eqn:E; [|discriminate].
    apply chr_eqb_eq in E as <-. exists [c], s, g. repeat split; auto. constructor.
  - destruct s as [|x s]; [discriminate|].
    destruct (p x) eqn:E; [|discriminate].
    exists [x], s, g. repeat split; auto. now constructor.
  - apply IH1 in H as (m1 & s1 & g1 & -> & Hm1 & H).
    apply IH2 in H as (m2 & s2 & g2 & -> & Hm2 & H).
    exists (m1 ++ m2), s2, g2. repeat split; auto.
    + now rewrite app_assoc.
    + now constructor.
  - destruct (rmatch r1 s g k) as [a'|] eqn:E.
    + injection H as ->. apply IH1 in E as (m & s' & g' & -> & Hm & E).
      exists m, s', g'. repeat split; auto. now apply M_AltL.
    + apply IH2 in H as (m & s' & g' & -> & Hm & E').
      exists m, s', g'. repeat split; auto. now apply M_AltR.
  - exact (star_loop_sound r (rmatch r) k (IH A) _ _ _ _ _ H).
  - apply IH in H as (m & s' & g' & -> & Hm & H).
    exists m, s', ((i, m) :: g'). repeat split; auto. now constructor.
Qed.

Lemma re_match_sound (r : regex) (s : str) (m : re_result) :
  re_match r s = Some m ->
  s = matched m ++ unmatched m /\ matches r (matched m).
Proof.
  unfold re_match. intros H.
  apply rmatch_sound in H as (t & s' & g' & -> & Hm & H).
  injection H as <-. simpl. auto.
Qed.

(** ** What the coordinate pattern matches *)

Lemma matches_chr (c : ascii) (m : str) : matches (Chr c) m -> m = [c].
Proof. now inversion 1. Qed.

Lemma matches_cls (p : ascii -> bool) (m : str) :
  matches (Cls p) m -> exists c, m = [c] /\ p c = true.
Proof. inversion 1; subst. eauto. Qed.

Lemma matches_seq (r1 r2 : regex) (m : str) :
  matches (r1 +++ r2) m ->
  exists m1 m2, m = m1 ++ m2 /\ matches r1 m1 /\ matches r2 m2.
Proof. inversion 1; subst. eauto. Qed.

Lemma matches_grp (i : nat) (r : regex) (m : str) :
  matches (Grp i r) m -> matches r m.
Proof. now inversion 1. Qed.

Lemma matches_star_cls (p : ascii -> bool) (m : str) :
  matches (Star (Cls p)) m -> forallb p m = true.
Proof.
  remember (Star (Cls p)) as r eqn:E. induction 1; try discriminate.
  - reflexivity.
  - injection E as ->. rewrite forallb_app, IHmatches2 by reflexivity.
    apply matches_cls in H as (c & -> & Hc). simpl. now rewrite Hc.
Qed.

Lemma matches_plus_cls (p : ascii -> bool) (m : str) :
  matches (Plus (Cls p)) m -> nonempty m = true /\ forallb p m = true.
Proof.
  intros H. apply matches_seq in H as (m1 & m2 & -> & H1 & H2).
  apply matches_cls in H1 as (c & -> & Hc). apply matches_star_cls in H2.
  simpl. now rewrite Hc, H2.
Qed.

Lemma coord_regex_shape (m : str) : matches coord_regex m -> coord_shape m.
Proof.
  unfold coord_regex. intros H.
  repeat match goal with
  | H : matches (_ +++ _) _ |- _ =>
      let m1 := fresh "m" in let m2 := fresh "m" in
      let H1 := fresh "H" in let H2 := fresh "H" in
      apply matches_seq in H as (m1 & m2 & -> & H1 & H2)
  | H : matches (Chr _) _ |- _ => apply matches_chr in H as ->
  | H : matches (Grp _ _) _ |- _ => apply matches_grp in H
  | H : matches (Star (Cls _)) _ |- _ => apply matches_star_cls in H
  | H : matches (Plus (Cls _)) _ |- _ => apply matches_plus_cls in H as [? ?]
  | H : matches (Cls _) _ |- _ =>
      let c := fresh "c" in let Hc := fresh "H" in
      apply matches_cls in H as (c & -> & Hc)
  end.
  match goal with
  | |- coord_shape (?d ++ ?w1 ++ _ ++ _ ++ _ ++ ?w2 ++ ?mi ++ _ ++ ?w3 ++ ?s ++ _ ++ ?w4 ++ [?h]) =>
      exists (MkCoord d w1 w2 mi w3 s w4 h)
  end.
  split; [|reflexivity].
  unfold coord_wf, digits, blanks. simpl.
  repeat match goal with H : _ = true |- _ => rewrite H; clear H end.
  reflexivity.
Qed.

Lemma coord_text_app (p : coord_parts) (rest : str) :
  coord_text p ++ rest =
  c_deg p ++ c_ws1 p ++ "d"%char :: "e"%char :: "g"%char :: c_ws2 p ++
  c_min p ++ "'"%char :: c_ws3 p ++ c_sec p ++ dquote :: c_ws4 p ++
  c_dir p :: rest.
Proof.
  unfold coord_text. repeat rewrite <- app_assoc. reflexivity.
Qed.

(** The pattern matches a coordinate text at the start of a string, with
    the four groups its pieces, whatever follows. *)
Lemma coord_re_match (p : coord_parts) (rest : str) :
  coord_wf p = true ->
  re_match coord_regex (coord_text p ++ rest) =
  Some (MkMatch (coord_text p) rest
          [(4%nat, [c_dir p]); (3%nat, c_sec p); (2%nat, c_min p); (1%nat, c_deg p)]).
Proof.
  intros H. rewrite coord_text_app. revert H.
  destruct p as [d w1 w2 mi w3 s w4 h]. unfold coord_wf. cbn [c_deg c_ws1 c_ws2 c_min c_ws3 c_sec c_ws4 c_dir].
  intros H. rewrite !andb_true_iff in H.
  destruct H as ((((((((((Hd1 & Hd2) & Hw1) & Hw2) & Hm1) & Hm2) & Hw3) & Hs1) & Hs2) & Hw4) & Hh).
  assert (Hh' : isspace h = false) by now apply dir_not_space.
  assert (Hmi : stops isspace (mi ++ "'"%char :: w3 ++ s ++ dquote :: w4 ++ h :: rest)).
  { destruct mi as [|c mi]; [discriminate|]. simpl.
    apply digit_not_space. unfold digits in Hm2. simpl in Hm2.
    now apply andb_prop in Hm2 as [? _]. }
  assert (Hs : stops isspace (s ++ dquote :: w4 ++ h :: rest)).
  { destruct s as [|c s]; [discriminate|]. simpl.
    apply issec_not_space. simpl in Hs2. now apply andb_prop in Hs2 as [? _]. }
  unfold re_match, coord_regex.
  apply step_plus; auto.
  { apply stops_app with (q := isspace); auto; [|reflexivity]. now ascii_cases c. }
  apply step_star; auto. { reflexivity. }
  do 3 apply step_chr.
  apply step_star; auto.
  apply step_plus; auto. { reflexivity. }
  apply step_chr.
  apply step_star; auto.
  apply step_plus; auto. { reflexivity. }
  apply step_chr.
  apply step_star; auto.
  cbn [rmatch]. rewrite Hh. reflexivity.
Qed.

(** ** [parse_coordinate] *)



Lemma no_prefix_shape (s : str) :
  re_match coord_regex s = None ->
  forall m rest, s = m ++ rest -> ~ coord_shape m.
Proof.
  intros H m rest -> (p & Hp & ->).
  rewrite coord_re_match in H by assumption. discriminate.
Qed.

Lemma coord_shape_last (s : str) :
  coord_shape s -> exists h r, rev s = h :: r /\ one_of "NSEW" h = true.
Proof.
  intros (p & Hp & ->). exists (c_dir p). eexists. split.
  - unfold coord_text. rewrite !app_assoc. rewrite rev_app_distr. reflexivity.
  - unfold coord_wf in Hp. now apply andb_prop in Hp as [_ ?].
Qed.

Lemma parse_coordinate_unmatched (s : str) :
  re_match coord_regex s = None -> parse_coordinate s = Ok 0%float.
Proof. intros H. unfold parse_coordinate. now rewrite H. Qed.

(** C3, as amended: when no prefix of the string is a coordinate text
    (digits, [deg], digits and an apostrophe, a run of digits and points and
    a double quote, one of N, S, E, W, with optional blanks between), the
    Coordinate Parser returns exactly 0.0 and raises nothing. *)
Theorem parse_coordinate_no_match (s : str) :
  (forall m rest, s = m ++ rest -> ~ coord_shape m) ->
  parse_coordinate s = Ok 0%float.
Proof.
  intros H. unfold parse_coordinate.
  destruct (re_match coord_regex s) as [m|] eqn:E; [|reflexivity].
  apply re_match_sound in E as [E Hm].
  exfalso. apply (H _ _ E). now apply coord_regex_shape.
Qed.

Lemma parse_coordinate_no_match_witness :
  (forall m rest, missing_quote = m ++ rest -> ~ coord_shape m) /\
  parse_coordinate missing_quote = Ok 0%float.
Proof.
  assert (H : forall m rest, missing_quote = m ++ rest -> ~ coord_shape m)
    by (apply no_prefix_shape; vm_compute; reflexivity).
  split; [exact H|]. exact (parse_coordinate_no_match missing_quote H).
Defined.

(** The other malformed texts the specification lists fall back to 0.0 in
    the same way. *)
Example parse_coordinate_malformed :
  parse_coordinate wrong_direction = Ok 0%float /\
  parse_coordinate non_numeric = Ok 0%float /\
  parse_coordinate [] = Ok 0%float.
Proof. repeat split; apply parse_coordinate_unmatched; vm_compute; reflexivity. Qed.

(** C3, as stated, fails: a coordinate text followed by more text is not a
    coordinate text (it ends in no direction letter), and the parser does
    not return 0.0 on it. *)
Lemma parse_coordinate_trailing_text_not_zero :
  ~ coord_shape (coord_text tokyo_lat ++ lit " approx") /\
  parse_coordinate (coord_text tokyo_lat ++ lit " approx") <> Ok 0%float.
Proof.
  split.
  - intros H. apply coord_shape_last in H as (h & r & E & Hh).
    vm_compute in E. injection E as <- _. vm_compute in Hh. discriminate.
  - vm_compute. discriminate.
Qed.

(** A text the pattern accepts whose seconds are not a number makes the
    parser raise, where the specification promises 0.0. *)
Example parse_coordinate_two_points_raises :
  parse_coordinate two_points = Raise ValueError.
Proof. vm_compute. reflexivity. Qed.



(** The sign: a western longitude comes out negative. *)
Example parse_coordinate_west :
  parse_coordinate (coord_text west_longitude) = Ok (-135.5)%float.
Proof. vm_compute. reflexivity. Qed.




(** At the start the pattern is anchored: a text that does not begin with a
    digit is no match, whatever follows. *)
Lemma parse_coordinate_leading_text (c : ascii) (s : str) :
  isdigit c = false -> parse_coordinate (c :: s) = Ok 0%float.
Proof.
  intros Hc. apply parse_coordinate_unmatched.
  unfold re_match, coord_regex, Plus.
  rewrite rmatch_seq. cbn [rmatch]. now rewrite Hc.
Qed.

(** ** [parse_gps_time] *)

Lemma parse_gps_time_clean (s : str) :
  parse_gps_time s =
  match strptime (clean_time s) with
  | Ok t => Some t
  | Raise _ => None
  end.
Proof. reflexivity. Qed.

Lemma remove_char_absent (c : ascii) (s : str) :
  has_char c s = false -> remove_char c s = s.
Proof.
  induction s as [|a s IH]; [reflexivity|].
  unfold has_char, remove_char in *. simpl. intros H.
  apply orb_false_elim in H as [Ha Hs].
  rewrite Ha. simpl. f_equal. auto.
Qed.

Lemma remove_char_app (c : ascii) (a b : str) :
  remove_char c (a ++ b) = remove_char c a ++ remove_char c b.
Proof. unfold remove_char. induction a as [|x a IH]; simpl; [reflexivity|]. destruct (negb _); simpl; now rewrite IH. Qed.

Lemma lstrip_app_nonspace (a b : str) (c : ascii) :
  isspace c = false -> lstrip (a ++ c :: b) = lstrip a ++ c :: b.
Proof.
  intros Hc. induction a as [|x a IH]; simpl.
  - now rewrite Hc.
  - destruct (isspace x); [exact IH|reflexivity].
Qed.

Lemma rstrip_app_nonspace (a b : str) (c : ascii) :
  isspace c = false -> rstrip (a ++ c :: b) = a ++ c :: rstrip b.
Proof.
  intros Hc. unfold rstrip_by. rewrite rev_app_distr. simpl.
  rewrite <- app_assoc. simpl. rewrite lstrip_app_nonspace by assumption.
  rewrite rev_app_distr. simpl. rewrite rev_involutive, <- app_assoc.
  reflexivity.
Qed.

Lemma lstrip_trimmed_app (a b : str) : trimmed a -> nonempty a = true -> lstrip (a ++ b) = a ++ b.
Proof.
  destruct a as [|c a]; [discriminate|]. unfold trimmed_by.
  destruct (rev (c :: a)) as [|d r] eqn:E.
  - apply (f_equal (@length _)) in E. rewrite length_rev in E. discriminate.
  - intros [Hc _] _. simpl. now rewrite Hc.
Qed.

Lemma break_at_absent_app (c : ascii) (a b : str) :
  has_char c a = false -> break_at c (a ++ c :: b) = (a, Some b).
Proof.
  induction a as [|x a IH]; simpl.
  - now rewrite chr_eqb_refl.
  - unfold has_char in *. simpl. intros H. apply orb_false_elim in H as [Hx Ha].
    rewrite Hx, IH by assumption. reflexivity.
Qed.

Lemma has_char_app (c : ascii) (a b : str) :
  has_char c (a ++ b) = has_char c a || has_char c b.
Proof. unfold has_char. apply existsb_app. Qed.

(** A fraction after a text with no point, no [Z] and no blank at its ends
    is cut off before [strptime] sees it. *)
Lemma clean_time_fraction (b f : str) :
  has_char "Z" b = false -> has_char "." b = false -> trimmed b ->
  clean_time (b ++ lit "." ++ f ++ lit "Z") = b /\
  clean_time (b ++ lit "Z") = b.
Proof.
  intros HZ Hp Ht. unfold clean_time. split.
  - rewrite !remove_char_app, remove_char_absent by assumption.
    change (remove_char "Z" (lit ".")) with (lit ".").
    change (lit "." ++ ?x) with ("."%char :: x).
    assert (E : strip (b ++ "."%char :: remove_char "Z" f ++ remove_char "Z" (lit "Z")) =
                b ++ "."%char :: rstrip (remove_char "Z" f)).
    { change (remove_char "Z" (lit "Z")) with (@nil ascii). rewrite app_nil_r.
      unfold strip_by. destruct b as [|c b].
      - cbn [app lstrip]. change (isspace ".") with false. cbn iota.
        exact (rstrip_app_nonspace [] _ "." eq_refl).
      - rewrite lstrip_trimmed_app by (assumption || reflexivity).
        now rewrite rstrip_app_nonspace by reflexivity. }
    rewrite E. rewrite has_char_app. simpl. rewrite orb_true_r.
    unfold split_fst. now rewrite break_at_absent_app.
  - rewrite remove_char_app, remove_char_absent by assumption.
    change (remove_char "Z" (lit "Z")) with (@nil ascii). rewrite app_nil_r.
    rewrite strip_trimmed by assumption. now rewrite Hp.
Qed.

Lemma timestamp_body_clean (b : str) :
  timestamp_body b = true ->
  has_char "Z" b = false /\ has_char "." b = false /\ trimmed b.
Proof.
  unfold timestamp_body.
  do 20 (destruct b as [|? b]; try discriminate).
  unfold digits. cbn [forallb]. rewrite !andb_true_iff.
  intros H. decompose [and] H. clear H.
  repeat match goal with
  | H : chr_eqb ?c _ = true |- _ => apply chr_eqb_eq in H; subst c
  end.
  unfold has_char, trimmed_by. cbn [existsb rev app].
  repeat match goal with
  | H : isdigit ?c = true |- _ =>
      assert (chr_eqb "Z" c = false) by (revert H; clear; now ascii_cases c);
      assert (chr_eqb "." c = false) by (revert H; clear; now ascii_cases c);
      apply digit_not_space in H
  end.
  repeat match goal with H : _ = false |- _ => rewrite H; clear H end.
  repeat split; reflexivity.
Qed.

(** ** [strptime] on a well-formed timestamp *)

Lemma isdigit_cases (c : ascii) : isdigit c = true -> In c (lit "0123456789").
Proof. destruct c as [[|] [|] [|] [|] [|] [|] [|] [|]]; vm_compute; first [discriminate | intros _; tauto]. Qed.

Lemma opt_or_none {X : Type} (o : option X) :
  match o with Some a => Some a | None => None end = o.
Proof. now destruct o. Qed.

Section Fields.
Context {A : Type}.
Implicit Types (K : str -> str -> groups -> option A).

Lemma rmatch_year (y1 y2 y3 y4 : ascii) (rest : str) g K :
  digits [y1; y2; y3; y4] = true ->
  rmatch (Grp 1 re_year) (y1 :: y2 :: y3 :: y4 :: rest) g K =
  K [y1; y2; y3; y4] rest ((1%nat, [y1; y2; y3; y4]) :: g).
Proof.
  unfold digits. cbn [forallb]. rewrite !andb_true_iff.
  intros (H1 & H2 & H3 & H4 & _).
  unfold re_year, Digit. cbn [rmatch]. now rewrite H1, H2, H3, H4.
Qed.

Lemma rmatch_month (a b : ascii) (rest : str) g K :
  isdigit a = true -> isdigit b = true -> digit_stops K ->
  rmatch (Grp 2 re_month) (a :: b :: rest) g K =
  if (1 <=? two_digits a b) && (two_digits a b <=? 12)
  then K [a; b] rest ((2%nat, [a; b]) :: g) else None.
Proof.
  intros Ha Hb HK. digit_cases isdigit_cases Ha; digit_cases isdigit_cases Hb;
    vm_compute; rewrite ?HK by reflexivity; rewrite ?opt_or_none; reflexivity.
Qed.

Lemma rmatch_day (a b : ascii) (rest : str) g K :
  isdigit a = true -> isdigit b = true -> digit_stops K ->
  rmatch (Grp 3 re_day) (a :: b :: rest) g K =
  if (1 <=? two_digits a b) && (two_digits a b <=? 31)
  then K [a; b] rest ((3%nat, [a; b]) :: g) else None.
Proof.
  intros Ha Hb HK. digit_cases isdigit_cases Ha; digit_cases isdigit_cases Hb;
    vm_compute; rewrite ?HK by reflexivity; rewrite ?opt_or_none; reflexivity.
Qed.

Lemma rmatch_hour (a b : ascii) (rest : str) g K :
  isdigit a = true -> isdigit b = true -> digit_stops K ->
  rmatch (Grp 4 re_hour) (a :: b :: rest) g K =
  if two_digits a b <=? 23
  then K [a; b] rest ((4%nat, [a; b]) :: g) else None.
Proof.
  intros Ha Hb HK. digit_cases isdigit_cases Ha; digit_cases isdigit_cases Hb;
    vm_compute; rewrite ?HK by reflexivity; rewrite ?opt_or_none; reflexivity.
Qed.

Lemma rmatch_minute (a b : ascii) (rest : str) g K :
  isdigit a = true -> isdigit b = true -> digit_stops K ->
  rmatch (Grp 5 re_minute) (a :: b :: rest) g K =
  if two_digits a b <=? 59
  then K [a; b] rest ((5%nat, [a; b]) :: g) else None.
Proof.
  intros Ha Hb HK. digit_cases isdigit_cases Ha; digit_cases isdigit_cases Hb;
    vm_compute; rewrite ?HK by reflexivity; rewrite ?opt_or_none; reflexivity.
Qed.

(** The seconds are the last field: [60] and [61] match as wholes, and of
    anything above only the first digit is taken. *)
Lemma rmatch_second (a b : ascii) g K :
  isdigit a = true -> isdigit b = true ->
  (forall m s g', K m s g' <> None) ->
  rmatch (Grp 6 re_second) [a; b] g K =
  if two_digits a b <=? 61
  then K [a; b] [] ((6%nat, [a; b]) :: g)
  else K [a] [b] ((6%nat, [a]) :: g).
Proof.
  intros Ha Hb HK. digit_cases isdigit_cases Ha; digit_cases isdigit_cases Hb;
    vm_compute;
    try match goal with
        | |- match ?o with _ => _ end = _ =>
            let E := fresh in destruct o eqn:E; [reflexivity|now apply HK in E]
        end; reflexivity.
Qed.
End Fields.
Lemma digit_not_colon (c : ascii) : isdigit c = true -> chr_eqb ":" c = false.
Proof. ascii_cases c. Qed.

Lemma digit_stops_colon {A : Type} (r : regex)
    (k : str -> str -> str -> groups -> option A) :
  digit_stops (fun m1 s1 g1 => rmatch (Chr ":" +++ r) s1 g1 (k m1)).
Proof.
  intros m c s g Hc. rewrite rmatch_seq. cbn [rmatch].
  now rewrite digit_not_colon.
Qed.

Lemma digit_stops_blank {A : Type} (r : regex)
    (k : str -> str -> str -> groups -> option A) :
  digit_stops (fun m1 s1 g1 => rmatch (Plus (Cls isspace) +++ r) s1 g1 (k m1)).
Proof.
  intros m c s g Hc. rewrite rmatch_seq. unfold Plus. rewrite rmatch_seq.
  rewrite (rmatch_cls_cons isspace c s). now rewrite digit_not_space.
Qed.

(** One blank before a digit is all that [\s+] takes. *)
Lemma rmatch_blank {A : Type} (c : ascii) (s : str) g
    (k : str -> str -> groups -> option A) :
  isdigit c = true ->
  rmatch (Plus (Cls isspace)) (" "%char :: c :: s) g k = k [" "%char] (c :: s) g.
Proof.
  intros Hc. unfold Plus. rewrite rmatch_seq, rmatch_cls_cons.
  change (isspace " ") with true. cbv iota.
  rewrite rmatch_star. cbn [length]. rewrite star_loop_S, rmatch_cls_cons.
  now rewrite (digit_not_space c Hc).
Qed.

Lemma days_in_month_le (y m : Z) : days_in_month y m <= 31.
Proof.
  unfold days_in_month.
  destruct (m =? 2); [destruct (is_leap y); lia|].
  destruct (_ || _); lia.
Qed.

Lemma two_digits_py_int (a b : ascii) :
  isdigit a = true -> isdigit b = true -> py_int [a; b] = two_digits a b.
Proof.
  intros Ha Hb. rewrite py_int_digits by (unfold digits; simpl; now rewrite Ha, Hb).
  unfold int_of_digits, two_digits. simpl. lia.
Qed.

(** On a text [YYYY:MM:DD HH:MM:SS], [strptime] returns the six numbers when
    they are a date and a time of day, and raises otherwise. *)
Lemma strptime_body (b : str) :
  timestamp_body b = true ->
  strptime b =
  if valid_datetime (body_fields b) then Ok (body_fields b) else Raise ValueError.
Proof.
  unfold timestamp_body.
  destruct b as [|y1 [|y2 [|y3 [|y4 [|c1 [|m1 [|m2 [|c2 [|d1 [|d2 [|sp
    [|h1 [|h2 [|c3 [|n1 [|n2 [|c4 [|s1 [|s2 [|x b]]]]]]]]]]]]]]]]]]]];
    try discriminate.
  unfold digits. cbn [forallb]. rewrite !andb_true_iff.
  intros H. decompose [and] H. clear H.
  repeat match goal with
  | H : chr_eqb ?c _ = true |- _ => apply chr_eqb_eq in H; subst c
  | H : true = true |- _ => clear H
  end.
  assert (Hy : digits [y1; y2; y3; y4] = true)
    by (unfold digits; cbn [forallb]; rewrite !andb_true_iff;
        repeat split; assumption).
  cbn [body_fields].
  unfold strptime, re_match, strptime_regex.
  rewrite rmatch_seq, rmatch_year by assumption.
  rewrite rmatch_seq, rmatch_chr_cons.
  rewrite rmatch_seq, rmatch_month by (assumption || apply digit_stops_colon).
  destruct ((1 <=? two_digits m1 m2) && (two_digits m1 m2 <=? 12)) eqn:Em.
  2: { destruct (valid_datetime _) eqn:V; [|reflexivity].
       unfold valid_datetime in V. cbn [year month day hour minute second] in V.
       rewrite !andb_true_iff in V. rewrite andb_false_iff in Em.
       rewrite !Z.leb_le in V. rewrite !Z.leb_gt in Em. lia. }
  rewrite rmatch_seq, rmatch_chr_cons.
  rewrite rmatch_seq, rmatch_day by (assumption || apply digit_stops_blank).
  destruct ((1 <=? two_digits d1 d2) && (two_digits d1 d2 <=? 31)) eqn:Ed.
  2: { destruct (valid_datetime _) eqn:V; [|reflexivity].
       unfold valid_datetime in V. cbn [year month day hour minute second] in V.
       rewrite !andb_true_iff in V. rewrite andb_false_iff in Ed.
       rewrite !Z.leb_le in V. rewrite !Z.leb_gt in Ed.
       pose proof (days_in_month_le (int_of_digits [y1; y2; y3; y4]) (two_digits m1 m2)).
       lia. }
  rewrite rmatch_seq, rmatch_blank by assumption.
  rewrite rmatch_seq, rmatch_hour by (assumption || apply digit_stops_colon).
  destruct (two_digits h1 h2 <=? 23) eqn:Eh.
  2: { destruct (valid_datetime _) eqn:V; [|reflexivity].
       unfold valid_datetime in V. cbn [year month day hour minute second] in V.
       rewrite !andb_true_iff in V.
       rewrite !Z.leb_le in V. rewrite !Z.leb_gt in Eh. lia. }
  rewrite rmatch_seq, rmatch_chr_cons.
  rewrite rmatch_seq, rmatch_minute by (assumption || apply digit_stops_colon).
  destruct (two_digits n1 n2 <=? 59) eqn:En.
  2: { destruct (valid_datetime _) eqn:V; [|reflexivity].
       unfold valid_datetime in V. cbn [year month day hour minute second] in V.
       rewrite !andb_true_iff in V.
       rewrite !Z.leb_le in V. rewrite !Z.leb_gt in En. lia. }
  rewrite rmatch_seq, rmatch_chr_cons.
  rewrite rmatch_second by (assumption || discriminate).
  destruct (two_digits s1 s2 <=? 61) eqn:Es.
  2: { cbn [unmatched].
       destruct (valid_datetime _) eqn:V; [|reflexivity].
       unfold valid_datetime in V. cbn [year month day hour minute second] in V.
       rewrite !andb_true_iff in V.
       rewrite !Z.leb_le in V. rewrite !Z.leb_gt in Es. lia. }
  cbn [unmatched captures group Nat.eqb].
  rewrite !two_digits_py_int, (py_int_digits [y1; y2; y3; y4]) by assumption.
  reflexivity.
Qed.

(** C7: on a timestamp [YYYY:MM:DD HH:MM:SS] followed by a fraction and
    [Z], the Timestamp Parser drops the fraction before parsing: whatever
    the fraction is, the result is that of the same timestamp without a
    fraction, namely the six numbers as written (the seconds are never
    rounded up) when they are a date and a time of day, and [None], not an
    exception, when they are not. *)
Theorem parse_gps_time_truncates (b f : str) :
  timestamp_body b = true ->
  parse_gps_time (b ++ lit "." ++ f ++ lit "Z") = parse_gps_time (b ++ lit "Z") /\
  parse_gps_time (b ++ lit "Z") =
  if valid_datetime (body_fields b) then Some (body_fields b) else None.
Proof.
  intros H. pose proof (strptime_body b H) as Hs.
  apply timestamp_body_clean in H as (HZ & Hp & Ht).
  destruct (clean_time_fraction b f HZ Hp Ht) as [E1 E2].
  rewrite !parse_gps_time_clean, E1, E2, Hs.
  split; [reflexivity|]. now destruct (valid_datetime _).
Qed.

Lemma parse_gps_time_truncates_witness :
  parse_gps_time (lit "2025:06:30 02:13:56" ++ lit "." ++ lit "9" ++ lit "Z") =
  parse_gps_time (lit "2025:06:30 02:13:56" ++ lit "Z") /\
  parse_gps_time (lit "2025:06:30 02:13:56" ++ lit "Z") =
  Some (MkDateTime 2025 6 30 2 13 56).
Proof.
  exact (parse_gps_time_truncates (lit "2025:06:30 02:13:56") (lit "9") eq_refl).
Defined.

(** The second stays 56 with the fraction [.9]: it is not rounded up; and a
    text that is no timestamp gives [None]. *)
Example parse_gps_time_examples :
  parse_gps_time (lit "2025:06:30 02:13:56.9Z") = Some (MkDateTime 2025 6 30 2 13 56) /\
  parse_gps_time (lit "2025:02:30 02:13:56Z") = None /\
  parse_gps_time (lit "garbage") = None.
Proof. repeat split; vm_compute; reflexivity. Qed.

(** ** The loop body, branch by branch *)

Lemma process_line_unmarked (st : seg_state) (line : str) :
  marker_of line = None -> process_line st line = Ok st.
Proof. intros H. branch H; reflexivity. Qed.

Lemma process_line_datetime (st : seg_state) (line : str) (t : DateTime) :
  datetime_line line t ->
  process_line st line = Ok (start_point t (save_current st)).
Proof.
  intros (H & v & Hv & Ht). branch H.
  rewrite Hv. cbn [rbind]. now rewrite Ht.
Qed.

Lemma process_line_bad_datetime (st : seg_state) (line : str) :
  bad_datetime_line line -> process_line st line = Ok (save_current st).
Proof.
  intros (H & v & Hv & Ht). branch H.
  rewrite Hv. cbn [rbind]. now rewrite Ht.
Qed.

Lemma process_line_latitude (st : seg_state) (line : str) (x : float) (l : loc) :
  coord_line MLatitude line x -> current_point st = Some l ->
  process_line st line = Ok (update_current (set_latitude x) l st).
Proof.
  intros (H & v & Hv & Hx) Hl. branch H.
  rewrite Hl, Hv. cbn [rbind]. now rewrite Hx.
Qed.

Lemma process_line_longitude (st : seg_state) (line : str) (x : float) (l : loc) :
  coord_line MLongitude line x -> current_point st = Some l ->
  process_line st line = Ok (update_current (set_longitude x) l st).
Proof.
  intros (H & v & Hv & Hx) Hl. branch H.
  rewrite Hl, Hv. cbn [rbind]. now rewrite Hx.
Qed.

Lemma process_line_altitude (st : seg_state) (line : str) (l : loc) :
  marker_of line = Some MAltitude -> current_point st = Some l ->
  process_line st line = Ok (update_current (set_altitude (altitude_of line)) l st).
Proof. intros H Hl. branch H. now rewrite Hl. Qed.

Lemma process_line_speed (st : seg_state) (line : str) (l : loc) :
  marker_of line = Some MSpeed -> current_point st = Some l ->
  process_line st line = Ok (update_current (set_speed (number_of line)) l st).
Proof. intros H Hl. branch H. now rewrite Hl. Qed.

Lemma process_line_track (st : seg_state) (line : str) (l : loc) :
  marker_of line = Some MTrack -> current_point st = Some l ->
  process_line st line = Ok (update_current (set_track (number_of line)) l st).
Proof. intros H Hl. branch H. now rewrite Hl. Qed.

(** Before the first point is started every line but a [GPS Date/Time]
    line is dropped. *)
Lemma process_line_no_point (st : seg_state) (line : str) :
  is_datetime_marker line = false -> current_point st = None ->
  process_line st line = Ok st.
Proof.
  unfold is_datetime_marker. intros H Hl.
  destruct (marker_of line) as [[]|] eqn:E; try discriminate H;
    try (now apply process_line_unmarked);
    branch E; now rewrite Hl.
Qed.

(** ** Runs of lines that start no point *)

Lemma lookup_alter_datetime (f : GpsPoint -> GpsPoint) (s : list GpsPoint) (l j : nat) :
  (forall p, datetime (f p) = datetime p) ->
  datetime <$> alter f l s !! j = datetime <$> s !! j.
Proof.
  intros Hf. rewrite list_lookup_alter. destruct (decide (l = j)) as [->|]; [|reflexivity].
  destruct (s !! j); simpl; [now rewrite Hf|reflexivity].
Qed.

Lemma process_line_quiet (st : seg_state) (line : str) (l : loc) :
  quiet_line line -> current_point st = Some l ->
  exists s',
    process_line st line =
      Ok (MkState s' (gps_data st ++ (if is_datetime_marker line then [l] else []))
                  (Some l)) /\
    length s' = length (store st) /\
    forall j, datetime <$> s' !! j = datetime <$> store st !! j.
Proof.
  unfold quiet_line, is_datetime_marker. intros Hq Hl.
  destruct (marker_of line) as [[]|] eqn:E.
  - destruct Hq as (v & Hv & Ht).
    rewrite (process_line_bad_datetime st line) by (split; eauto).
    unfold save_current. rewrite Hl. eauto.
  - destruct Hq as (v & x & Hv & Hx).
    rewrite (process_line_latitude st line x l) by (try split; eauto).
    unfold update_current. rewrite Hl, app_nil_r. eexists. split; [reflexivity|].
    split; [apply length_alter|]. intros j. now apply lookup_alter_datetime.
  - destruct Hq as (v & x & Hv & Hx).
    rewrite (process_line_longitude st line x l) by (try split; eauto).
    unfold update_current. rewrite Hl, app_nil_r. eexists. split; [reflexivity|].
    split; [apply length_alter|]. intros j. now apply lookup_alter_datetime.
  - rewrite (process_line_altitude st line l) by assumption.
    unfold update_current. rewrite Hl, app_nil_r. eexists. split; [reflexivity|].
    split; [apply length_alter|]. intros j. now apply lookup_alter_datetime.
  - rewrite (process_line_speed st line l) by assumption.
    unfold update_current. rewrite Hl, app_nil_r. eexists. split; [reflexivity|].
    split; [apply length_alter|]. intros j. now apply lookup_alter_datetime.
  - rewrite (process_line_track st line l) by assumption.
    unfold update_current. rewrite Hl, app_nil_r. eexists. split; [reflexivity|].
    split; [apply length_alter|]. intros j. now apply lookup_alter_datetime.
  - rewrite process_line_unmarked by assumption. rewrite app_nil_r.
    destruct st as [s g c]. simpl in *. subst c. eauto.
Qed.

Lemma for_lines_app (st : seg_state) (a b : list str) :
  for_lines st (a ++ b) = (do st' <- for_lines st a; for_lines st' b).
Proof.
  revert st. induction a as [|x a IH]; intros st; simpl; [reflexivity|].
  destruct (process_line st x); simpl; [apply IH|reflexivity].
Qed.

Lemma repeat_snoc {X : Type} (x : X) (n : nat) : repeat x n ++ [x] = x :: repeat x n.
Proof. induction n; simpl; [reflexivity|]. now rewrite IHn. Qed.

(** Over lines that start no point the loop keeps its point, appends it
    once for each [GPS Date/Time] line, and leaves every timestamp of the
    store as it was. *)
Lemma for_lines_quiet (lines : list str) :
  forall (st : seg_state) (l : loc),
    Forall quiet_line lines -> current_point st = Some l ->
    exists s',
      for_lines st lines =
        Ok (MkState s' (gps_data st ++ repeat l (count_datetime lines)) (Some l)) /\
      length s' = length (store st) /\
      forall j, datetime <$> s' !! j = datetime <$> store st !! j.
Proof.
  induction lines as [|line lines IH]; intros st l Hq Hl.
  - exists (store st). simpl. rewrite app_nil_r. destruct st; simpl in *; subst. auto.
  - inversion Hq as [|? ? Hq1 Hq2]; subst.
    destruct (process_line_quiet st line l Hq1 Hl) as (s1 & E1 & Hlen1 & Hdt1).
    cbn [for_lines]. rewrite E1. cbn [rbind].
    destruct (IH (MkState s1 (gps_data st ++ (if is_datetime_marker line then [l] else [])) (Some l)) l Hq2 eq_refl)
      as (s2 & E2 & Hlen2 & Hdt2).
    exists s2. rewrite E2. cbn [gps_data store] in *. split; [|split].
    + f_equal. f_equal. rewrite <- app_assoc. f_equal.
      unfold count_datetime. cbn [List.filter].
      destruct (is_datetime_marker line); reflexivity.
    + congruence.
    + intros j. now rewrite Hdt2, Hdt1.
Qed.

(** ** The Segmenter *)

Lemma for_lines_unmarked (st : seg_state) (lines : list str) :
  unmarked lines -> for_lines st lines = Ok st.
Proof.
  induction 1 as [|line lines H _ IH]; simpl; [reflexivity|].
  now rewrite process_line_unmarked.
Qed.

Lemma for_lines_skip (st : seg_state) (noise : list str) (line : str) (rest : list str) :
  unmarked noise ->
  for_lines st (noise ++ line :: rest) =
  (do st' <- process_line st line; for_lines st' rest).
Proof. intros H. now rewrite for_lines_app, for_lines_unmarked. Qed.


(** C5: two [GPS Date/Time] lines with parseable times, each followed by
    one latitude, one longitude, one altitude, one speed and one track
    line (other, unmarked lines may stand anywhere between), give exactly
    two points, each with the values of its own lines, in the order of the
    two [GPS Date/Time] lines. *)
Theorem segment_two_points
    (dt1 lat1 lon1 alt1 spd1 trk1 dt2 lat2 lon2 alt2 spd2 trk2 : str)
    (n0 n1 n2 n3 n4 n5 n6 n7 n8 n9 n10 n11 n12 : list str)
    (t1 t2 : DateTime) (x1 y1 x2 y2 : float) :
  datetime_line dt1 t1 -> datetime_line dt2 t2 ->
  coord_line MLatitude lat1 x1 -> coord_line MLongitude lon1 y1 ->
  coord_line MLatitude lat2 x2 -> coord_line MLongitude lon2 y2 ->
  marker_of alt1 = Some MAltitude -> marker_of spd1 = Some MSpeed ->
  marker_of trk1 = Some MTrack ->
  marker_of alt2 = Some MAltitude -> marker_of spd2 = Some MSpeed ->
  marker_of trk2 = Some MTrack ->
  unmarked n0 -> unmarked n1 -> unmarked n2 -> unmarked n3 -> unmarked n4 ->
  unmarked n5 -> unmarked n6 -> unmarked n7 -> unmarked n8 -> unmarked n9 ->
  unmarked n10 -> unmarked n11 -> unmarked n12 ->
  exists r,
    segment (n0 ++ dt1 :: n1 ++ lat1 :: n2 ++ lon1 :: n3 ++ alt1 :: n4 ++
             spd1 :: n5 ++ trk1 :: n6 ++ dt2 :: n7 ++ lat2 :: n8 ++
             lon2 :: n9 ++ alt2 :: n10 ++ spd2 :: n11 ++ trk2 :: n12) = Ok r /\
    points_of r =
      [MkPoint t1 x1 y1 (altitude_of alt1) (number_of spd1) (number_of trk1);
       MkPoint t2 x2 y2 (altitude_of alt2) (number_of spd2) (number_of trk2)].
Proof.
  intros Hdt1 Hdt2 Hlat1 Hlon1 Hlat2 Hlon2 Halt1 Hspd1 Htrk1 Halt2 Hspd2 Htrk2
         U0 U1 U2 U3 U4 U5 U6 U7 U8 U9 U10 U11 U12.
  eexists. split.
  - unfold segment.
    rewrite for_lines_skip, (process_line_datetime _ dt1 t1) by assumption. cbn [rbind].
    rewrite for_lines_skip, (process_line_latitude _ lat1 x1 0%nat) by (assumption || reflexivity). cbn [rbind].
    rewrite for_lines_skip, (process_line_longitude _ lon1 y1 0%nat) by (assumption || reflexivity). cbn [rbind].
    rewrite for_lines_skip, (process_line_altitude _ alt1 0%nat) by (assumption || reflexivity). cbn [rbind].
    rewrite for_lines_skip, (process_line_speed _ spd1 0%nat) by (assumption || reflexivity). cbn [rbind].
    rewrite for_lines_skip, (process_line_track _ trk1 0%nat) by (assumption || reflexivity). cbn [rbind].
    rewrite for_lines_skip, (process_line_datetime _ dt2 t2) by assumption. cbn [rbind].
    rewrite for_lines_skip, (process_line_latitude _ lat2 x2 1%nat) by (assumption || reflexivity). cbn [rbind].
    rewrite for_lines_skip, (process_line_longitude _ lon2 y2 1%nat) by (assumption || reflexivity). cbn [rbind].
    rewrite for_lines_skip, (process_line_altitude _ alt2 1%nat) by (assumption || reflexivity). cbn [rbind].
    rewrite for_lines_skip, (process_line_speed _ spd2 1%nat) by (assumption || reflexivity). cbn [rbind].
    rewrite for_lines_skip, (process_line_track _ trk2 1%nat) by (assumption || reflexivity). cbn [rbind].
    rewrite for_lines_unmarked by assumption. cbn [rbind]. reflexivity.
  - reflexivity.
Qed.

Lemma sample_dt1 : datetime_line line_dt1 time1.
Proof.
  split; [vm_compute; reflexivity|].
  exists (lit "2025:06:30 02:13:56.9Z"). split; vm_compute; reflexivity.
Qed.

Lemma sample_dt2 : datetime_line line_dt2 time2.
Proof.
  split; [vm_compute; reflexivity|].
  exists (lit "2025:06:30 02:13:57.9Z"). split; vm_compute; reflexivity.
Qed.

Lemma sample_dt_bad : bad_datetime_line line_dt_bad.
Proof.
  split; [vm_compute; reflexivity|].
  exists (lit "0000:00:00 00:00:00Z"). split; vm_compute; reflexivity.
Qed.

Lemma sample_lat1 : coord_line MLatitude line_lat1 (35 + 37 / 60 + 35.5 / 3600)%float.
Proof.
  split; [vm_compute; reflexivity|].
  exists (lit "35 deg 37' 35.50" ++ [dquote] ++ lit " N"). split; vm_compute; reflexivity.
Qed.

Lemma sample_lon1 : coord_line MLongitude line_lon1 (139 + 44 / 60 + 28.5 / 3600)%float.
Proof.
  split; [vm_compute; reflexivity|].
  exists (lit "139 deg 44' 28.50" ++ [dquote] ++ lit " E"). split; vm_compute; reflexivity.
Qed.

Lemma sample_lat2 : coord_line MLatitude line_lat2 (-36)%float.
Proof.
  split; [vm_compute; reflexivity|].
  exists (lit "36 deg 0' 0" ++ [dquote] ++ lit " S"). split; vm_compute; reflexivity.
Qed.

Lemma sample_lon2 : coord_line MLongitude line_lon2 140.5%float.
Proof.
  split; [vm_compute; reflexivity|].
  exists (lit "140 deg 30' 0" ++ [dquote] ++ lit " E"). split; vm_compute; reflexivity.
Qed.

Lemma unmarked_nil : unmarked [].
Proof. constructor. Qed.

Lemma sample_noise : unmarked [lit "Sample Time                     : 0 s"; []].
Proof. repeat constructor. Qed.

Lemma segment_two_points_witness :
  exists r,
    segment ([lit "Sample Time                     : 0 s"; []] ++
             line_dt1 :: [] ++ line_lat1 :: [] ++ line_lon1 :: [] ++
             line_alt1 :: [] ++ line_spd1 :: [] ++ line_trk1 ::
             [lit "Sample Time                     : 0 s"; []] ++
             line_dt2 :: [] ++ line_lat2 :: [] ++ line_lon2 :: [] ++
             line_alt2 :: [] ++ line_spd2 :: [] ++ line_trk2 :: []) = Ok r /\
    points_of r =
      [MkPoint time1 (35 + 37 / 60 + 35.5 / 3600) (139 + 44 / 60 + 28.5 / 3600)
               12.5 1.25 270.5;
       MkPoint time2 (-36) 140.5 0 2.5 90].
Proof.
  exact (segment_two_points
           line_dt1 line_lat1 line_lon1 line_alt1 line_spd1 line_trk1
           line_dt2 line_lat2 line_lon2 line_alt2 line_spd2 line_trk2
           _ [] [] [] [] [] _ [] [] [] [] [] [] time1 time2 _ _ _ _
           sample_dt1 sample_dt2 sample_lat1 sample_lon1 sample_lat2 sample_lon2
           eq_refl eq_refl eq_refl eq_refl eq_refl eq_refl
           sample_noise unmarked_nil unmarked_nil unmarked_nil unmarked_nil
           unmarked_nil sample_noise unmarked_nil unmarked_nil unmarked_nil
           unmarked_nil unmarked_nil unmarked_nil).
Defined.

(** ** References stay within the store *)

Lemma process_line_cases (st st' : seg_state) (line : str) :
  process_line st line = Ok st' ->
  st' = st \/ st' = save_current st \/
  (exists t, st' = start_point t (save_current st)) \/
  (exists f l, current_point st = Some l /\ st' = update_current f l st).
Proof.
  unfold process_line.
  destruct (is_blank line); [intros [= <-]; auto|].
  destruct (contains GPS_DateTime line).
  { destruct (value_of line) as [v|]; cbn [rbind]; [|discriminate].
    destruct (parse_gps_time v); intros [= <-]; eauto. }
  destruct (current_point st) as [l|] eqn:El.
  2: { repeat match goal with
       | |- context [if ?b then _ else _] => destruct b
       end; intros [= <-]; auto. }
  repeat match goal with
  | |- context [if ?b then _ else _] => destruct b
  end;
  repeat match goal with
  | |- context [rbind (value_of line) _] => destruct (value_of line); cbn [rbind]
  | |- context [rbind (parse_coordinate ?v) _] => destruct (parse_coordinate v); cbn [rbind]
  end;
  intros H; try discriminate H; injection H as <-; eauto 8.
Qed.

Lemma wf_init : wf_state init_state.
Proof. split; [discriminate|constructor]. Qed.

Lemma wf_save_current (st : seg_state) : wf_state st -> wf_state (save_current st).
Proof.
  unfold save_current. destruct (current_point st) as [l|] eqn:E; [|auto].
  intros [H1 H2]. split; simpl; [intros ? [= <-]; auto|].
  apply Forall_app. split; [assumption|]. repeat constructor. now apply H1.
Qed.

Lemma wf_start_point (t : DateTime) (st : seg_state) :
  wf_state st -> wf_state (start_point t st).
Proof.
  intros [H1 H2]. split; simpl.
  - intros l [= <-]. rewrite length_app. simpl. lia.
  - eapply Forall_impl; [exact H2|]. intros l Hl. simpl in *. rewrite length_app. simpl. lia.
Qed.

Lemma wf_update_current f (l : loc) (st : seg_state) :
  wf_state st -> wf_state (update_current f l st).
Proof.
  intros [H1 H2]. split; simpl; rewrite length_alter; auto.
Qed.

Lemma process_line_wf (st st' : seg_state) (line : str) :
  wf_state st -> process_line st line = Ok st' -> wf_state st'.
Proof.
  intros Hwf H. apply process_line_cases in H as [->|[->|[[t ->]|(f & l & _ & ->)]]];
    auto using wf_save_current, wf_start_point, wf_update_current.
Qed.

Lemma for_lines_wf (lines : list str) :
  forall st st', wf_state st -> for_lines st lines = Ok st' -> wf_state st'.
Proof.
  induction lines as [|line lines IH]; intros st st' Hwf H; simpl in H.
  - now injection H as <-.
  - destruct (process_line st line) as [st1|] eqn:E; [|discriminate].
    eapply IH; [|exact H]. eapply process_line_wf; eauto.
Qed.

Lemma save_current_some (s : list GpsPoint) (g : list loc) (l : loc) :
  save_current (MkState s g (Some l)) = MkState s (g ++ [l]) (Some l).
Proof. reflexivity. Qed.

(** What the Segmenter returns when a point is started at [dt] and the
    lines after it start none. *)
Lemma segment_after_datetime (pre post : list str) (dt : str) (t : DateTime)
    (st : seg_state) :
  for_lines init_state pre = Ok st -> datetime_line dt t ->
  Forall quiet_line post ->
  exists s p,
    segment (pre ++ dt :: post) =
      Ok (MkPoints s (gps_data (save_current st) ++
                      repeat (length (store st)) (S (count_datetime post)))) /\
    s !! length (store st) = Some p /\ datetime p = t.
Proof.
  intros Hpre Hdt Hpost.
  assert (Hst : store (save_current st) = store st)
    by (unfold save_current; now destruct (current_point st)).
  destruct (for_lines_quiet post (start_point t (save_current st))
              (length (store st)) Hpost) as (s & E & Hlen & Hdts).
  { simpl. now rewrite Hst. }
  assert (Hp : datetime <$> s !! length (store st) = Some t).
  { rewrite Hdts. simpl. rewrite Hst.
    now rewrite lookup_app_r, Nat.sub_diag by lia. }
  destruct (s !! length (store st)) as [p|] eqn:Ep; [|discriminate].
  exists s, p. split; [|split; [exact Ep|simpl in Hp; congruence]].
  unfold segment. rewrite for_lines_app, Hpre. cbn [rbind for_lines].
  rewrite (process_line_datetime _ dt t Hdt). cbn [rbind]. rewrite E. cbn [rbind].
  rewrite save_current_some. cbn [store gps_data start_point].
  rewrite <- app_assoc, repeat_snoc. reflexivity.
Qed.

(** C6: a point started by a [GPS Date/Time] line, after which no line
    starts another, is in the output of the Segmenter, as its last
    element. *)
Theorem segment_flushes_last_point (pre post : list str) (dt : str)
    (t : DateTime) (st : seg_state) :
  for_lines init_state pre = Ok st -> datetime_line dt t ->
  Forall quiet_line post ->
  exists r p,
    segment (pre ++ dt :: post) = Ok r /\
    last (pl_refs r) = Some (length (store st)) /\
    last (points_of r) = Some p /\ datetime p = t.
Proof.
  intros Hpre Hdt Hpost.
  destruct (segment_after_datetime pre post dt t st Hpre Hdt Hpost)
    as (s & p & E & Hp & Ht).
  eexists. exists p. split; [exact E|]. cbn [pl_refs points_of pl_store].
  change (S (count_datetime post)) with (1 + count_datetime post)%nat.
  rewrite Nat.add_comm, repeat_app, app_assoc. cbn [repeat].
  split; [apply last_snoc|]. split; [|exact Ht].
  unfold points_of. cbn [pl_refs pl_store].
  rewrite omap_app.
  replace (omap (fun l => s !! l) [length (store st)]) with [p]
    by (simpl; now rewrite Hp).
  apply last_snoc.
Qed.

Lemma sample_quiet_post : Forall quiet_line [line_lat2; line_alt2; line_dt_bad; line_spd2].
Proof.
  repeat constructor; unfold quiet_line.
  - change (marker_of line_lat2) with (Some MLatitude).
    destruct sample_lat2 as (_ & v & ? & ?). eauto.
  - change (marker_of line_dt_bad) with (Some MDateTime).
    destruct sample_dt_bad as (_ & v & ? & ?). eauto.
Qed.

Lemma segment_flushes_last_point_witness :
  exists r p,
    segment ([line_dt1; line_lat1] ++ line_dt2 ::
             [line_lat2; line_alt2; line_dt_bad; line_spd2]) = Ok r /\
    last (pl_refs r) = Some 1%nat /\
    last (points_of r) = Some p /\ datetime p = time2.
Proof.
  exact (segment_flushes_last_point [line_dt1; line_lat1]
           [line_lat2; line_alt2; line_dt_bad; line_spd2] line_dt2 time2
           (MkState [MkPoint time1 (35 + 37 / 60 + 35.5 / 3600) 0 0 0 0] [] (Some 0%nat))
           eq_refl sample_dt2 sample_quiet_post).
Defined.




(** C1 fails on the code when a point is already under construction: the
    latitude that follows the unparsable [GPS Date/Time] line is written
    into the point emitted before it, and that point is returned twice. *)
Example segment_bad_datetime_overwrites :
  segment [line_dt1; line_lat1; line_dt_bad; line_lat2] =
    Ok (MkPoints [MkPoint time1 (-36) 0 0 0 0] [0; 0]%nat) /\
  (forall r, segment [line_dt1; line_lat1; line_dt_bad; line_lat2] = Ok r ->
     points_of r = [MkPoint time1 (-36) 0 0 0 0; MkPoint time1 (-36) 0 0 0 0]) /\
  segment [line_dt1; line_lat1] =
    Ok (MkPoints [MkPoint time1 (35 + 37 / 60 + 35.5 / 3600) 0 0 0 0] [0]%nat).
Proof.
  split; [vm_compute; reflexivity|]. split; [|vm_compute; reflexivity].
  intros r H. vm_compute in H. injection H as <-. reflexivity.
Qed.

(** Where C1 holds: before any point is started, a [GPS Date/Time] line
    that does not parse starts none, and the lines up to the next
    [GPS Date/Time] line are dropped. *)
Lemma for_lines_no_point (lines : list str) (st : seg_state) :
  current_point st = None ->
  Forall (fun line => is_datetime_marker line = false \/ bad_datetime_line line) lines ->
  for_lines st lines = Ok st.
Proof.
  intros Hl. induction 1 as [|line lines H _ IH]; simpl; [reflexivity|].
  destruct H as [H|H].
  - now rewrite process_line_no_point.
  - rewrite process_line_bad_datetime by assumption.
    unfold save_current. rewrite Hl. exact IH.
Qed.

(** The three guarded branches never raise, whatever the line. *)
Lemma process_line_guarded (st : seg_state) (line : str) :
  marker_of line = Some MAltitude \/ marker_of line = Some MSpeed \/
  marker_of line = Some MTrack ->
  exists st', process_line st line = Ok st'.
Proof.
  intros [H|[H|H]]; destruct (current_point st) as [l|] eqn:E;
    try (rewrite process_line_no_point;
         [eauto|unfold is_datetime_marker; now rewrite H|assumption]).
  - rewrite (process_line_altitude st line l) by assumption. eauto.
  - rewrite (process_line_speed st line l) by assumption. eauto.
  - rewrite (process_line_track st line l) by assumption. eauto.
Qed.

(** C8 fails on the code: a latitude whose seconds are no number, or a
    latitude line without a colon, raises in the loop; [extract_gps_data]
    prints the error and returns no point at all, although the lines before
    describe a complete point. *)
Example extract_aborts_on_bad_coordinate :
  segment [line_dt1; line_lat1; line_dt2; line_lat_two_points] = Raise ValueError /\
  segment [line_dt1; line_lat1; line_dt2; lit "GPS Latitude"] = Raise IndexError /\
  extract_gps_data (lit "DCIM/VID_001.lrv")
    (Completed 0 (unlines [line_dt1; line_lat1; line_dt2; line_lat_two_points]) []) =
    ([MsgAnalyzing (lit "VID_001.lrv"); MsgException (lit "DCIM/VID_001.lrv")],
     no_points) /\
  segment [line_dt1; line_lat1; line_dt2] =
    Ok (MkPoints [MkPoint time1 (35 + 37 / 60 + 35.5 / 3600) 0 0 0 0;
                  MkPoint time2 0 0 0 0 0] [0; 1]%nat).
Proof. repeat split; vm_compute; reflexivity. Qed.

(** ** [main] *)

Lemma process_files_no_points (w : world) (files : list str) :
  (forall f, pl_refs (snd (extract_gps_data f (run_exiftool w f))) = []) ->
  snd (process_files w files) = [] /\
  forallb is_print (fst (process_files w files)) = true.
Proof.
  intros H. induction files as [|f files [IH1 IH2]]; simpl; [auto|].
  specialize (H f). destruct (extract_gps_data f (run_exiftool w f)) as [msgs r].
  destruct (process_files w files) as [evs all_data]. simpl in *.
  rewrite H. split; [assumption|].
  rewrite forallb_app, IH2, andb_true_r.
  clear. induction msgs; simpl; auto.
Qed.

(** When no file yields a point, [main] prints its last message, writes no
    file and returns: the exit status is 0. *)
Lemma main_no_points (w : world) (prog folder_path : str) (more : list str) :
  path_exists w folder_path = true -> exiftool_available w = true ->
  (isfile w folder_path && is_lrv folder_path = true \/
   find_lrv_files w folder_path <> []) ->
  (forall f, pl_refs (snd (extract_gps_data f (run_exiftool w f))) = []) ->
  snd (main (prog :: folder_path :: more) w) = 0 /\
  forallb is_print (fst (main (prog :: folder_path :: more) w)) = true /\
  last (fst (main (prog :: folder_path :: more) w)) = Some (Print MsgNoGpsData).
Proof.
  intros Hp He Hf Hn. unfold main. rewrite Hp, He. cbn [negb].
  set (files := if isfile w folder_path && is_lrv folder_path then _ else _).
  assert (Hfiles : snd files <> [] /\ forallb is_print (fst files) = true).
  { subst files. destruct (isfile w folder_path && is_lrv folder_path).
    - split; [discriminate|reflexivity].
    - destruct Hf as [Hf|Hf]; [discriminate|]. split; [exact Hf|reflexivity]. }
  destruct files as [ev1 lrv_files]. cbn [fst snd] in Hfiles.
  destruct Hfiles as [Hne Hev1].
  destruct lrv_files as [|f fs]; [congruence|].
  destruct (process_files_no_points w (f :: fs) Hn) as [E1 E2].
  destruct (process_files w (f :: fs)) as [ev2 all_data]. cbn [fst snd] in E1, E2.
  subst all_data. cbn [fst snd]. split; [reflexivity|]. split.
  - rewrite !forallb_app, Hev1, E2. reflexivity.
  - rewrite !app_assoc. apply last_snoc.
Qed.

(** C2 fails on the code: with one LRV file that holds no GPS line the
    program prints that no GPS data was found and writes nothing, but its
    exit status is 0. *)
Example main_no_gps_data_exits_zero :
  main [lit "lrv_batch_analyzer.py"; lit "DCIM"] world_without_gps =
  ([Print (MsgSearching (lit "DCIM")); Print (MsgFound 1);
    Print (MsgAnalyzing (lit "VID_001.lrv")); Print (MsgExtracted 0);
    Print MsgNoGpsData], 0).
Proof. vm_compute. reflexivity. Qed.

(** The sibling paths end the process with status 1. *)
Example main_fatal_paths_exit_one :
  snd (main [lit "lrv_batch_analyzer.py"] world_without_gps) = 1 /\
  snd (main [lit "lrv_batch_analyzer.py"; lit "DCIM"]
         (MkWorld (fun _ => false) true (fun _ => false) (fun _ => []) (fun _ => Failed))) = 1 /\
  snd (main [lit "lrv_batch_analyzer.py"; lit "DCIM"]
         (MkWorld (fun _ => true) false (fun _ => false) (fun _ => []) (fun _ => Failed))) = 1 /\
  snd (main [lit "lrv_batch_analyzer.py"; lit "DCIM"]
         (MkWorld (fun _ => true) true (fun _ => false) (fun _ => []) (fun _ => Failed))) = 1.
Proof. repeat split. Qed.

(* ================================================================= *)
(** * Further properties *)

(** ** Lines and markers *)

Lemma contains_here (n s : str) : starts_with n s = true -> contains n s = true.
Proof. intros H. destruct s; simpl in *; now rewrite H. Qed.

Lemma starts_with_app (needle post : str) :
  starts_with needle (needle ++ post) = true.
Proof.
  induction needle as [|c needle IH]; simpl; [reflexivity|].
  now rewrite chr_eqb_refl.
Qed.

Lemma contains_app (n pre post : str) : contains n (pre ++ n ++ post) = true.
Proof.
  induction pre as [|c pre IH].
  - cbn [app]. apply contains_here, starts_with_app.
  - cbn [app contains]. rewrite IH. apply orb_true_r.
Qed.

Lemma is_blank_nonspace (a b : str) (c : ascii) :
  isspace c = false -> is_blank (a ++ c :: b) = false.
Proof.
  intros Hc. unfold is_blank, strip_by.
  rewrite lstrip_app_nonspace, rstrip_app_nonspace by assumption.
  now destruct (lstrip a).
Qed.

(** X1: a line is taken as a [GPS Date/Time] line as soon as that text
    occurs anywhere in it, in the label or in the value, and whatever other
    marker the line holds. *)
Theorem marker_of_datetime_anywhere (pre post : str) :
  marker_of (pre ++ GPS_DateTime ++ post) = Some MDateTime.
Proof.
  unfold marker_of. rewrite contains_app.
  change (GPS_DateTime ++ post) with ("G"%char :: (lit "PS Date/Time" ++ post)).
  now rewrite is_blank_nonspace.
Qed.

Lemma break_at_first (c : ascii) (key v : str) :
  has_char c key = false -> break_at c (key ++ c :: v) = (key, Some v).
Proof. apply break_at_absent_app. Qed.

Lemma break_at_none (c : ascii) (s : str) :
  snd (break_at c s) = None <-> has_char c s = false.
Proof.
  induction s as [|a s IH]; simpl; [tauto|].
  unfold has_char in *. simpl. destruct (chr_eqb c a); simpl.
  - split; discriminate.
  - destruct (break_at c s) as [h t]. simpl in *. exact IH.
Qed.

(** X2: the value of a line is what follows its first colon, without the
    blanks around it, so the colons of a time stay in the value; a line
    with no colon has no value and the subscript raises [IndexError]. *)
Theorem value_of_first_colon (line : str) :
  (forall key v, line = key ++ ":"%char :: v -> has_char ":" key = false ->
     value_of line = Ok (strip v)) /\
  (value_of line = Raise IndexError <-> has_char ":" line = false).
Proof.
  split.
  - intros key v -> Hk. unfold value_of, split1_snd.
    now rewrite break_at_first.
  - unfold value_of, split1_snd. rewrite <- break_at_none.
    destruct (snd (break_at ":" line)); simpl; split; congruence.
Qed.

Lemma value_of_first_colon_witness :
  value_of (lit "GPS Date/Time : 2025:06:30 02:13:56Z") =
  Ok (lit "2025:06:30 02:13:56Z").
Proof.
  exact (proj1 (value_of_first_colon (lit "GPS Date/Time : 2025:06:30 02:13:56Z"))
           (lit "GPS Date/Time ") (lit " 2025:06:30 02:13:56Z") eq_refl eq_refl).
Defined.

(** ** The Segmenter on whole inputs *)

(** X3: when no [GPS Date/Time] line of the input has a time that parses,
    the Segmenter returns no point and raises nothing, whatever the other
    lines are (coordinate lines without a colon included: with no point
    under construction they are not read). *)
Theorem segment_without_timestamp (lines : list str) :
  Forall (fun line => is_datetime_marker line = false \/ bad_datetime_line line) lines ->
  segment lines = Ok no_points.
Proof.
  intros H. unfold segment. now rewrite for_lines_no_point.
Qed.

Lemma segment_without_timestamp_witness :
  segment [lit "GPS Latitude"; line_dt_bad; line_lat_two_points; line_alt1] =
  Ok no_points.
Proof.
  apply segment_without_timestamp.
  repeat (constructor; [first [left; reflexivity | right; exact sample_dt_bad]|]).
  constructor.
Defined.

(** X4: lines that hold no marker, blank lines among them, can be taken
    out of the input or put into it anywhere without changing what the
    Segmenter returns. *)
Theorem segment_skips_unmarked (before noise after : list str) :
  unmarked noise ->
  segment (before ++ noise ++ after) = segment (before ++ after).
Proof.
  intros H. unfold segment. rewrite !for_lines_app.
  destruct (for_lines init_state before) as [st|e]; [|reflexivity].
  cbn [rbind]. now rewrite for_lines_app, for_lines_unmarked.
Qed.

Lemma segment_skips_unmarked_witness :
  segment ([line_dt1; line_lat1] ++ [[]; lit "Sample Time : 0 s"] ++ [line_lon1]) =
  segment ([line_dt1; line_lat1] ++ [line_lon1]).
Proof.
  apply segment_skips_unmarked. repeat constructor.
Defined.

(** ** Any number of points *)

Lemma save_current_store (st : seg_state) : store (save_current st) = store st.
Proof. unfold save_current. now destruct (current_point st). Qed.

Lemma omap_lookup_seq_from {X : Type} (l pre : list X) :
  omap (fun i => (pre ++ l) !! i) (seq (length pre) (length l)) = l.
Proof.
  revert pre. induction l as [|x l IH]; intros pre; [reflexivity|].
  cbn [length seq omap list_omap].
  rewrite list_lookup_middle by reflexivity. f_equal.
  specialize (IH (pre ++ [x])).
  rewrite <- app_assoc, length_app, Nat.add_comm in IH. exact IH.
Qed.

Lemma omap_lookup_seq {X : Type} (l : list X) :
  omap (fun i => l !! i) (seq 0 (length l)) = l.
Proof. exact (omap_lookup_seq_from l []). Qed.

Lemma alter_last {X : Type} (f : X -> X) (pre : list X) (p : X) :
  alter f (length pre) (pre ++ [p]) = pre ++ [f p].
Proof.
  rewrite <- (Nat.add_0_r (length pre)). now rewrite alter_app_r.
Qed.

(** A line of a body, with the newest dictionary under construction. *)
Lemma process_line_effect (pre : list GpsPoint) (p : GpsPoint) (g : list loc)
    (line : str) :
  quiet_line line -> is_datetime_marker line = false ->
  process_line (MkState (pre ++ [p]) g (Some (length pre))) line =
  Ok (MkState (pre ++ [line_effect line p]) g (Some (length pre))).
Proof.
  intros Hq Hd. unfold quiet_line, is_datetime_marker, line_effect in *.
  destruct (marker_of line) as [[| | | | |]|] eqn:Hm; try discriminate.
  - destruct Hq as (v & x & Hv & Hx).
    rewrite (process_line_latitude _ line x (length pre)); [| split; eauto | reflexivity].
    rewrite Hv. cbn [rbind]. rewrite Hx. unfold update_current. cbn [store gps_data current_point].
    now rewrite alter_last.
  - destruct Hq as (v & x & Hv & Hx).
    rewrite (process_line_longitude _ line x (length pre)); [| split; eauto | reflexivity].
    rewrite Hv. cbn [rbind]. rewrite Hx. unfold update_current. cbn [store gps_data current_point].
    now rewrite alter_last.
  - rewrite (process_line_altitude (MkState (pre ++ [p]) g (Some (length pre))) line
               (length pre) Hm eq_refl).
    unfold update_current. cbn [store gps_data current_point]. now rewrite alter_last.
  - rewrite (process_line_speed (MkState (pre ++ [p]) g (Some (length pre))) line
               (length pre) Hm eq_refl).
    unfold update_current. cbn [store gps_data current_point]. now rewrite alter_last.
  - rewrite (process_line_track (MkState (pre ++ [p]) g (Some (length pre))) line
               (length pre) Hm eq_refl).
    unfold update_current. cbn [store gps_data current_point]. now rewrite alter_last.
  - now rewrite process_line_unmarked.
Qed.

Lemma count_datetime_cons (line : str) (lines : list str) :
  count_datetime (line :: lines) = 0%nat ->
  is_datetime_marker line = false /\ count_datetime lines = 0%nat.
Proof.
  unfold count_datetime. cbn [List.filter].
  destruct (is_datetime_marker line); [discriminate|auto].
Qed.

Lemma for_lines_body (body : list str) :
  forall (pre : list GpsPoint) (p : GpsPoint) (g : list loc),
    Forall quiet_line body -> count_datetime body = 0%nat ->
    for_lines (MkState (pre ++ [p]) g (Some (length pre))) body =
    Ok (MkState (pre ++ [fold_left (fun p line => line_effect line p) body p]) g
                (Some (length pre))).
Proof.
  induction body as [|line body IH]; intros pre p g Hq Hc; [reflexivity|].
  inversion Hq; subst. apply count_datetime_cons in Hc. destruct Hc as [Hd Hc].
  cbn [for_lines fold_left]. rewrite process_line_effect by assumption.
  cbn [rbind]. now apply IH.
Qed.

(** The loop over whole groups: one new dictionary for each, appended in
    order, and the dictionaries that were there are left as they are. *)
Lemma for_lines_groups (sgs : list seg_input) :
  forall st, Forall seg_ok sgs ->
  exists st',
    for_lines st (flat_map seg_lines sgs) = Ok st' /\
    store st' = store st ++ map point_of_seg sgs /\
    gps_data (save_current st') =
      gps_data (save_current st) ++ seq (length (store st)) (length sgs).
Proof.
  induction sgs as [|sg sgs IH]; intros st Hok.
  - exists st. cbn [flat_map for_lines length seq map]. now rewrite !app_nil_r.
  - inversion Hok as [|? ? [Hdt [Hq Hc]] Hrest]; subst.
    cbn [flat_map]. unfold seg_lines at 1. cbn [app for_lines].
    rewrite (process_line_datetime _ _ _ Hdt). cbn [rbind].
    rewrite for_lines_app. unfold start_point. rewrite save_current_store.
    rewrite for_lines_body by assumption. cbn [rbind].
    fold (point_of_seg sg).
    destruct (IH (MkState (store st ++ [point_of_seg sg]) (gps_data (save_current st))
                          (Some (length (store st)))) Hrest) as (st' & E & S & G).
    cbn [store] in *. rewrite save_current_some in G. cbn [gps_data] in G.
    exists st'. split; [exact E|]. split.
    + rewrite S, <- app_assoc. reflexivity.
    + rewrite G, length_app, <- app_assoc, Nat.add_1_r. cbn [app length].
      now rewrite cons_seq.
Qed.

(** The Segmenter on lines that start no point followed by whole
    groups. *)
Lemma segment_of_groups (noise : list str) (sgs : list seg_input) :
  Forall (fun line => is_datetime_marker line = false \/ bad_datetime_line line) noise ->
  Forall seg_ok sgs ->
  exists r,
    segment (noise ++ flat_map seg_lines sgs) = Ok r /\
    pl_refs r = seq 0 (length sgs) /\
    points_of r = map point_of_seg sgs.
Proof.
  intros Hn Hs. unfold segment. rewrite for_lines_app.
  rewrite (for_lines_no_point noise init_state eq_refl Hn). cbn [rbind].
  destruct (for_lines_groups sgs init_state Hs) as (st' & E & S & G).
  rewrite E. cbn [rbind]. eexists. split; [reflexivity|].
  cbn [pl_refs init_state store length app] in *.
  change (gps_data (save_current init_state)) with (@nil loc) in G.
  cbn [app] in G. split; [exact G|].
  unfold points_of. cbn [pl_refs pl_store]. rewrite G, save_current_store, S.
  rewrite <- (length_map point_of_seg sgs). apply omap_lookup_seq.
Qed.

(** X5: after lines that start no point, each well-formed group -- a
    [GPS Date/Time] line whose time parses, then lines that raise nothing
    up to the next [GPS Date/Time] line -- gives exactly one point: the
    list has one dictionary for each group, all different, in the order of
    the input; each has the time of its group and, field by field, the
    value of the last line of the group that writes the field, or 0.0
    when there is none. *)
Theorem segment_groups (noise : list str) (sgs : list seg_input) :
  Forall (fun line => is_datetime_marker line = false \/ bad_datetime_line line) noise ->
  Forall seg_ok sgs ->
  exists r,
    segment (noise ++ flat_map seg_lines sgs) = Ok r /\
    pl_refs r = seq 0 (length sgs) /\
    points_of r = map point_of_seg sgs.
Proof. exact (segment_of_groups noise sgs). Qed.

Lemma segment_groups_witness :
  exists r,
    segment ([line_lat1; line_dt_bad] ++
             flat_map seg_lines
               [MkSeg line_dt1 time1 [line_lat2; line_alt1; line_lat1];
                MkSeg line_dt2 time2 [];
                MkSeg line_dt1 time1 [line_lon2; line_spd2]]) = Ok r /\
    pl_refs r = [0; 1; 2]%nat /\
    points_of r =
      [MkPoint time1 (35 + 37 / 60 + 35.5 / 3600) 0 12.5 0 0;
       MkPoint time2 0 0 0 0 0;
       MkPoint time1 0 140.5 0 2.5 0].
Proof.
  apply (segment_groups [line_lat1; line_dt_bad]
           [MkSeg line_dt1 time1 [line_lat2; line_alt1; line_lat1];
            MkSeg line_dt2 time2 [];
            MkSeg line_dt1 time1 [line_lon2; line_spd2]]).
  - constructor; [left; reflexivity|].
    constructor; [right; exact sample_dt_bad|]. constructor.
  - assert (Q1 : quiet_line line_lat1).
    { exists (lit "35 deg 37' 35.50" ++ [dquote] ++ lit " N"), (35 + 37 / 60 + 35.5 / 3600)%float.
      split; reflexivity. }
    assert (Q2 : quiet_line line_lat2).
    { exists (lit "36 deg 0' 0" ++ [dquote] ++ lit " S"), (-36)%float.
      split; reflexivity. }
    assert (Q3 : quiet_line line_lon2).
    { exists (lit "140 deg 30' 0" ++ [dquote] ++ lit " E"), 140.5%float.
      split; reflexivity. }
    constructor; [|constructor; [|constructor; [|constructor]]].
    + split; [exact sample_dt1|]. split; [|reflexivity].
      constructor; [exact Q2|]. constructor; [exact I|].
      constructor; [exact Q1|]. constructor.
    + split; [exact sample_dt2|]. split; [constructor|reflexivity].
    + split; [exact sample_dt1|]. split; [|reflexivity].
      constructor; [exact Q3|]. constructor; [exact I|]. constructor.
Defined.

(** ** When a line aborts the file *)

(** X6: a line raises out of the loop in two cases only: a
    [GPS Date/Time] line without a colon, with or without a point under
    construction; and, with a point under construction, a [GPS Latitude]
    or [GPS Longitude] line without a colon or whose coordinate makes
    [parse_coordinate] raise.  Nothing else raises: not an altitude, speed
    or track line, not a time that does not parse. *)
Theorem process_line_raises (st : seg_state) (line : str) (e : exn) :
  process_line st line = Raise e <->
  (marker_of line = Some MDateTime /\ value_of line = Raise e) \/
  ((marker_of line = Some MLatitude \/ marker_of line = Some MLongitude) /\
   current_point st <> None /\
   (value_of line = Raise e \/
    exists v, value_of line = Ok v /\ parse_coordinate v = Raise e)).
Proof.
  unfold process_line, marker_of.
  destruct (is_blank line); [split; [discriminate|]; intros [[H _]|[[H|H] _]]; discriminate|].
  destruct (contains GPS_DateTime line).
  { destruct (value_of line) as [v|e']; cbn [rbind].
    - destruct (parse_gps_time v); split; try discriminate;
        intros [[_ H]|[[H|H] _]]; discriminate.
    - split; [intros [= <-]; now left|].
      intros [[_ H]|[[H|H] _]]; congruence. }
  destruct (contains GPS_Latitude line).
  { destruct (current_point st) as [l|].
    - destruct (value_of line) as [v|e']; cbn [rbind].
      + destruct (parse_coordinate v) as [x|e'] eqn:Ex; cbn [rbind].
        * split; [discriminate|].
          intros [[H _]|(_ & _ & [H|(v' & [= <-] & H)])]; congruence.
        * split.
          -- intros [= <-]. right. split; [now left|]. split; [discriminate|].
             right. now exists v.
          -- intros [[H _]|(_ & _ & [H|(v' & [= <-] & H)])]; congruence.
      + split.
        * intros [= <-]. right. split; [now left|]. split; [discriminate|]. now left.
        * intros [[H _]|(_ & _ & [H|(v' & H & _)])]; congruence.
    - split; [discriminate|]. intros [[H _]|(_ & H & _)]; congruence. }
  destruct (contains GPS_Longitude line).
  { destruct (current_point st) as [l|].
    - destruct (value_of line) as [v|e']; cbn [rbind].
      + destruct (parse_coordinate v) as [x|e'] eqn:Ex; cbn [rbind].
        * split; [discriminate|].
          intros [[H _]|(_ & _ & [H|(v' & [= <-] & H)])]; congruence.
        * split.
          -- intros [= <-]. right. split; [now right|]. split; [discriminate|].
             right. now exists v.
          -- intros [[H _]|(_ & _ & [H|(v' & [= <-] & H)])]; congruence.
      + split.
        * intros [= <-]. right. split; [now right|]. split; [discriminate|]. now left.
        * intros [[H _]|(_ & _ & [H|(v' & H & _)])]; congruence.
    - split; [discriminate|]. intros [[H _]|(_ & H & _)]; congruence. }
  destruct (contains GPS_Altitude line);
    [destruct (current_point st); split; try discriminate;
       intros [[H _]|[[H|H] _]]; discriminate|].
  destruct (contains GPS_Speed line);
    [destruct (current_point st); split; try discriminate;
       intros [[H _]|[[H|H] _]]; discriminate|].
  destruct (contains GPS_Track line);
    [destruct (current_point st); split; try discriminate;
       intros [[H _]|[[H|H] _]]; discriminate|].
  split; [discriminate|]. intros [[H _]|[[H|H] _]]; discriminate.
Qed.

Lemma process_line_raises_witness :
  process_line init_state (lit "GPS Date/Time 2025") = Raise IndexError.
Proof.
  apply (proj2 (process_line_raises init_state (lit "GPS Date/Time 2025") IndexError)).
  left. split; reflexivity.
Defined.

(** ** A coordinate that does not start with a digit *)

Lemma parse_coordinate_not_digit (v : str) :
  stops isdigit v -> parse_coordinate v = Ok 0%float.
Proof.
  destruct v as [|c s]; [reflexivity|]. apply parse_coordinate_leading_text.
Qed.

(** X7: the pattern is tried at the start of the value only.  With a
    point under construction, a [GPS Latitude] or [GPS Longitude] line
    whose value is empty or starts with anything but a digit -- a sign, a
    letter as in a line [GPS Latitude Ref], a coordinate after some words
    -- raises nothing and sets the field to 0.0, whatever was stored. *)
Theorem coordinate_reset (st : seg_state) (line v : str) (l : loc) :
  value_of line = Ok v -> stops isdigit v -> current_point st = Some l ->
  (marker_of line = Some MLatitude ->
   process_line st line = Ok (update_current (set_latitude 0) l st)) /\
  (marker_of line = Some MLongitude ->
   process_line st line = Ok (update_current (set_longitude 0) l st)).
Proof.
  intros Hv Hs Hc. apply parse_coordinate_not_digit in Hs. split; intros Hm.
  - apply process_line_latitude; [|exact Hc]. split; [exact Hm|]. now exists v.
  - apply process_line_longitude; [|exact Hc]. split; [exact Hm|]. now exists v.
Qed.

Lemma coordinate_reset_witness :
  process_line (MkState [MkPoint time1 (-36) 140.5 0 0 0] [] (Some 0%nat))
               (lit "GPS Latitude Ref                : South") =
    Ok (MkState [MkPoint time1 0 140.5 0 0 0] [] (Some 0%nat)) /\
  process_line (MkState [MkPoint time1 (-36) 140.5 0 0 0] [] (Some 0%nat))
               (lit "GPS Longitude                   : -140 deg 30' 0" ++ [dquote] ++ lit " E") =
    Ok (MkState [MkPoint time1 (-36) 0 0 0 0] [] (Some 0%nat)).
Proof.
  split.
  - exact (proj1 (coordinate_reset
                    (MkState [MkPoint time1 (-36) 140.5 0 0 0] [] (Some 0%nat))
                    (lit "GPS Latitude Ref                : South") (lit "South")
                    0%nat eq_refl eq_refl eq_refl) eq_refl).
  - exact (proj2 (coordinate_reset
                    (MkState [MkPoint time1 (-36) 140.5 0 0 0] [] (Some 0%nat))
                    (lit "GPS Longitude                   : -140 deg 30' 0" ++ [dquote] ++ lit " E")
                    (lit "-140 deg 30' 0" ++ [dquote] ++ lit " E")
                    0%nat eq_refl eq_refl eq_refl) eq_refl).
Defined.

(** ** Numbers followed by a unit *)

Lemma digitpart_tail_chars (n : nat) :
  forall s d r, (length s <= n)%nat -> digitpart_tail s = (d, r) ->
    forallb numeral_char r = true -> forallb numeral_char s = true.
Proof.
  induction n as [|n IH]; intros s d r Hl E Hr.
  - destruct s; [reflexivity|simpl in Hl; lia].
  - destruct s as [|c s]; [reflexivity|]. cbn [digitpart_tail] in E.
    cbn [length] in Hl.
    destruct (isdigit c) eqn:Hc.
    + destruct (digitpart_tail s) as [d' r'] eqn:E'. injection E as <- <-.
      cbn [forallb]. unfold numeral_char at 1. rewrite Hc. cbn [orb andb].
      apply (IH s d' r'); [lia|exact E'|exact Hr].
    + destruct (chr_eqb c "_") eqn:Hu.
      * destruct s as [|c2 s]; [injection E as <- <-; exact Hr|].
        destruct (isdigit c2) eqn:Hc2; [|injection E as <- <-; exact Hr].
        destruct (digitpart_tail s) as [d' r'] eqn:E'. injection E as <- <-.
        apply chr_eqb_eq in Hu. subst c.
        cbn [forallb]. unfold numeral_char at 2. rewrite Hc2. cbn [orb andb].
        rewrite (IH s d' r'); [reflexivity|cbn [length] in Hl; lia|exact E'|exact Hr].
      * injection E as <- <-. exact Hr.
Qed.

Lemma digitpart_chars (s d r : str) :
  digitpart s = Some (d, r) ->
  forallb numeral_char r = true -> forallb numeral_char s = true.
Proof.
  destruct s as [|c s]; [discriminate|]. cbn [digitpart].
  destruct (isdigit c) eqn:Hc; [|discriminate].
  destruct (digitpart_tail s) as [d' r'] eqn:E. intros [= <- <-] Hr.
  cbn [forallb]. unfold numeral_char at 1. rewrite Hc. cbn [orb andb].
  now apply (digitpart_tail_chars (length s) s d' r').
Qed.

Lemma exponent_chars (s : str) (e : Z) :
  exponent s = Some e -> forallb numeral_char s = true.
Proof.
  destruct s as [|c s]; [reflexivity|]. cbn [exponent].
  destruct (chr_eqb c "e" || chr_eqb c "E") eqn:Hc; [|discriminate].
  assert (Hn : numeral_char c = true).
  { apply orb_true_iff in Hc. destruct Hc as [H|H]; apply chr_eqb_eq in H; now subst c. }
  cbn [forallb]. rewrite Hn. cbn [andb].
  assert (Hd : forall t, match digitpart t with
                         | Some (d, []) => True
                         | _ => False
                         end -> forallb numeral_char t = true).
  { intros t. destruct (digitpart t) as [[d [|? ?]]|] eqn:E; try tauto.
    intros _. now apply (digitpart_chars t d []). }
  destruct s as [|x t].
  - cbn. discriminate.
  - destruct (chr_eqb x "-") eqn:Hm; [|destruct (chr_eqb x "+") eqn:Hp].
    + apply chr_eqb_eq in Hm. subst x. intros H. cbn [forallb].
      change (numeral_char "-") with true. apply Hd.
      destruct (digitpart t) as [[d [|? ?]]|]; try discriminate; exact I.
    + apply chr_eqb_eq in Hp. subst x. intros H. cbn [forallb].
      change (numeral_char "+") with true. apply Hd.
      destruct (digitpart t) as [[d [|? ?]]|]; try discriminate; exact I.
    + intros H. apply Hd.
      destruct (digitpart (x :: t)) as [[d [|? ?]]|]; try discriminate; exact I.
Qed.

(** A text [float] reads as a decimal numeral holds numeral characters
    only. *)
Lemma floatnumber_chars (s : str) (f : float) :
  floatnumber s = Some f -> forallb numeral_char s = true.
Proof.
  unfold floatnumber.
  assert (Hfin : forall ip fp rest,
            match exponent rest with
            | Some e => Some (binary64_of_decimal (int_of_digits (ip ++ fp))
                                (e - Z.of_nat (length fp)))
            | None => None
            end = Some f -> forallb numeral_char rest = true).
  { intros ip fp rest. destruct (exponent rest) eqn:E; [|discriminate].
    intros _. now apply exponent_chars with z. }
  destruct (digitpart s) as [[ip r]|] eqn:E.
  - destruct r as [|c r'].
    + intros H. apply (digitpart_chars s ip [] E). reflexivity.
    + destruct (chr_eqb c ".") eqn:Hc.
      * apply chr_eqb_eq in Hc. subst c.
        destruct (digitpart r') as [[fp r2]|] eqn:E2; intros H;
          apply (digitpart_chars s ip _ E); cbn [forallb];
          change (numeral_char ".") with true; cbn [andb].
        -- apply (digitpart_chars r' fp r2 E2). now apply Hfin in H.
        -- now apply Hfin in H.
      * intros H. apply (digitpart_chars s ip _ E). now apply Hfin in H.
  - destruct s as [|c r']; [discriminate|].
    destruct (chr_eqb c ".") eqn:Hc; [|discriminate].
    apply chr_eqb_eq in Hc. subst c.
    destruct (digitpart r') as [[fp r2]|] eqn:E2; [|discriminate].
    intros H. cbn [forallb]. change (numeral_char ".") with true. cbn [andb].
    apply (digitpart_chars r' fp r2 E2). now apply Hfin in H.
Qed.

Lemma space_not_numeral (c : ascii) : isspace c = true -> numeral_char c = false.
Proof. ascii_cases c. Qed.

Lemma lower_space (c : ascii) : isspace c = true -> lower_chr c = c.
Proof. ascii_cases c. Qed.

Lemma space_num_space (c : ascii) : isspace_num c = true -> isspace c = true.
Proof. ascii_cases c. Qed.

Lemma starts_with_eq (a b : str) :
  length a = length b -> starts_with a b = true -> a = b.
Proof.
  revert b. induction a as [|x a IH]; intros [|y b] Hl H; try discriminate; auto.
  cbn in H. apply andb_true_iff in H. destruct H as [Hx H].
  apply chr_eqb_eq in Hx. subst y. f_equal. apply IH; [now injection Hl|exact H].
Qed.

Lemma str_eqb_eq (a b : str) : str_eqb a b = true -> a = b.
Proof.
  unfold str_eqb. intros H. apply andb_true_iff in H. destruct H as [Hl H].
  apply Nat.eqb_eq in Hl. now apply starts_with_eq.
Qed.

Lemma absfloatvalue_space (body : str) (c : ascii) :
  In c body -> isspace c = true -> absfloatvalue body = None.
Proof.
  intros Hin Hc. unfold absfloatvalue.
  assert (Hl : In c (lower body)).
  { rewrite <- (lower_space c Hc). now apply in_map. }
  assert (Hno : forall w, forallb (fun a => negb (isspace a)) w = true ->
                          str_eqb (lower body) w = false).
  { intros w Hw. destruct (str_eqb (lower body) w) eqn:E; [|reflexivity].
    apply str_eqb_eq in E. rewrite E in Hl.
    rewrite forallb_forall in Hw. apply Hw in Hl. now rewrite Hc in Hl. }
  rewrite !Hno by reflexivity. cbn [orb].
  destruct (floatnumber body) as [f|] eqn:E; [|reflexivity].
  apply floatnumber_chars in E. rewrite forallb_forall in E.
  apply E in Hin. now rewrite (space_not_numeral c Hc) in Hin.
Qed.

(** [float] refuses a text with whitespace inside it. *)
Lemma py_float_inner_space (x y c : ascii) (a b : str) :
  isspace x = false -> isspace y = false -> isspace c = true ->
  py_float (x :: a ++ c :: b ++ [y]) = Raise ValueError.
Proof.
  intros Hx Hy Hc. unfold py_float.
  rewrite strip_trimmed.
  2:{ unfold trimmed_by. cbn [rev]. rewrite rev_app_distr. cbn [rev].
      rewrite rev_app_distr. cbn [rev app].
      split.
      - destruct (isspace_num x) eqn:E; [|reflexivity].
        apply space_num_space in E. congruence.
      - destruct (isspace_num y) eqn:E; [|reflexivity].
        apply space_num_space in E. congruence. }
  assert (H1 : absfloatvalue (a ++ c :: b ++ [y]) = None).
  { apply absfloatvalue_space with c; [|exact Hc]. apply in_elt. }
  assert (H2 : absfloatvalue (x :: a ++ c :: b ++ [y]) = None).
  { apply absfloatvalue_space with c; [|exact Hc]. right. apply in_elt. }
  destruct (chr_eqb x "-"); [now rewrite H1|].
  destruct (chr_eqb x "+"); [now rewrite H1|now rewrite H2].
Qed.

Lemma take_word_app (w rest : str) (c : ascii) :
  forallb (fun a => negb (isspace a)) w = true -> isspace c = true ->
  take_word (w ++ c :: rest) = w.
Proof.
  intros Hw Hc. induction w as [|a w IH]; cbn [app take_word].
  - now rewrite Hc.
  - cbn [forallb] in Hw. apply andb_true_iff in Hw. destruct Hw as [Ha Hw].
    apply negb_true_iff in Ha. rewrite Ha. f_equal. now apply IH.
Qed.

Lemma strip_value (ws : str) (x y : ascii) (a : str) :
  blanks ws = true -> isspace x = false -> isspace y = false ->
  strip (ws ++ x :: a ++ [y]) = x :: a ++ [y].
Proof.
  intros Hw Hx Hy. unfold strip_by. rewrite lstrip_app_blanks by exact Hw.
  rewrite lstrip_head by exact Hx.
  change (x :: a ++ [y]) with ((x :: a) ++ y :: []).
  rewrite rstrip_app_nonspace by exact Hy. reflexivity.
Qed.

(** X8: a number followed by a unit.  On a [GPS Altitude] line the number
    is read and the unit dropped, as only the first word of the value is
    converted; on a [GPS Speed] or [GPS Track] line the whole value goes to
    [float], which refuses it, and the field is set to 0.0. *)
Theorem unit_after_number (key ws num unit : str) (x sp y : ascii) :
  has_char ":" key = false -> blanks ws = true ->
  isspace x = false -> forallb (fun a => negb (isspace a)) num = true ->
  isspace sp = true -> isspace y = false ->
  let line := key ++ ":"%char :: ws ++ (x :: num) ++ sp :: unit ++ [y] in
  altitude_of line = or_zero (py_float (x :: num)) /\
  number_of line = 0%float.
Proof.
  intros Hk Hw Hx Hn Hs Hy line.
  assert (Hv : value_of line = Ok (x :: num ++ sp :: unit ++ [y])).
  { unfold line, value_of, split1_snd. rewrite break_at_absent_app by exact Hk.
    cbn [snd rbind]. f_equal.
    assert (E : (x :: num) ++ sp :: unit ++ [y] = x :: (num ++ sp :: unit) ++ [y]).
    { cbn [app]. now rewrite <- app_assoc. }
    rewrite E, strip_value by assumption.
    now rewrite <- app_assoc. }
  unfold altitude_of, number_of. rewrite Hv. cbn [rbind]. split.
  - unfold first_word. rewrite lstrip_head by exact Hx.
    change (x :: num ++ sp :: unit ++ [y]) with ((x :: num) ++ sp :: unit ++ [y]).
    rewrite take_word_app; [reflexivity| |exact Hs].
    cbn [forallb]. now rewrite Hx, Hn.
  - now rewrite py_float_inner_space.
Qed.

Lemma unit_after_number_witness :
  altitude_of (lit "GPS Altitude : 12.5 m") = 12.5%float /\
  number_of (lit "GPS Speed : 1.25 m/s") = 0%float.
Proof.
  split.
  - exact (proj1 (unit_after_number (lit "GPS Altitude ") (lit " ") (lit "2.5") []
                    "1" " " "m" eq_refl eq_refl eq_refl eq_refl eq_refl eq_refl)).
  - exact (proj2 (unit_after_number (lit "GPS Speed ") (lit " ") (lit ".25") (lit "m/")
                    "1" " " "s" eq_refl eq_refl eq_refl eq_refl eq_refl eq_refl)).
Defined.

(** ** What [parse_gps_time] lets through *)

Lemma has_char_lstrip (c : ascii) (s : str) :
  has_char c s = false -> has_char c (lstrip s) = false.
Proof.
  induction s as [|a s IH]; [reflexivity|]. cbn [lstrip_by].
  destruct (isspace a); [|auto]. unfold has_char in *. cbn [existsb].
  intros H. apply orb_false_iff in H. now apply IH.
Qed.

Lemma has_char_remove (c d : ascii) (s : str) :
  has_char c s = false -> has_char c (remove_char d s) = false.
Proof.
  unfold has_char, remove_char. induction s as [|a s IH]; [reflexivity|].
  cbn [existsb List.filter]. intros H. apply orb_false_iff in H. destruct H as [Ha Hs].
  destruct (negb (chr_eqb d a)); cbn [existsb]; [rewrite Ha|]; now apply IH.
Qed.

Lemma clean_time_point (a x : str) :
  has_char "." a = false ->
  clean_time (a ++ "."%char :: x) = lstrip (remove_char "Z" a).
Proof.
  intros Ha. unfold clean_time. rewrite remove_char_app.
  change (remove_char "Z" ("."%char :: x)) with ("."%char :: remove_char "Z" x).
  unfold strip_by. rewrite lstrip_app_nonspace by reflexivity.
  rewrite rstrip_app_nonspace by reflexivity.
  rewrite has_char_app. cbn [has_char existsb]. change (chr_eqb "." ".") with true.
  cbn [orb]. rewrite orb_true_r.
  unfold split_fst. rewrite break_at_absent_app; [reflexivity|].
  now apply has_char_lstrip, has_char_remove.
Qed.

(** X9: [parse_gps_time] drops every [Z] of its argument, wherever it
    stands, and nothing that follows the first point reaches [strptime]:
    two texts that agree up to their first point give the same result. *)
Theorem parse_gps_time_lenient (a b x y : str) :
  parse_gps_time (a ++ "Z"%char :: b) = parse_gps_time (a ++ b) /\
  (has_char "." a = false ->
   parse_gps_time (a ++ "."%char :: x) = parse_gps_time (a ++ "."%char :: y)).
Proof.
  split.
  - unfold parse_gps_time. rewrite !remove_char_app. reflexivity.
  - intros Ha. rewrite !parse_gps_time_clean. now rewrite !clean_time_point.
Qed.

Lemma parse_gps_time_lenient_witness :
  parse_gps_time (lit "2025:06:30" ++ "Z"%char :: lit " 02:13:56") =
    parse_gps_time (lit "2025:06:30" ++ lit " 02:13:56") /\
  parse_gps_time (lit "2025:06:30 02:13:56" ++ "."%char :: lit "9Z") =
    parse_gps_time (lit "2025:06:30 02:13:56" ++ "."%char :: lit " not a fraction").
Proof.
  split.
  - exact (proj1 (parse_gps_time_lenient (lit "2025:06:30") (lit " 02:13:56") [] [])).
  - exact (proj2 (parse_gps_time_lenient (lit "2025:06:30 02:13:56") [] (lit "9Z")
                    (lit " not a fraction")) eq_refl).
Defined.

(** ** The seconds [float] refuses *)




















(** ** The lines of the tool's output *)

Lemma split_on_cons (c : ascii) (l rest : str) :
  has_char c l = false -> split_on c (l ++ c :: rest) = l :: split_on c rest.
Proof.
  intros H. induction l as [|a l IH].
  - cbn [app split_on]. now rewrite chr_eqb_refl.
  - unfold has_char in *. cbn [existsb] in H. apply orb_false_iff in H.
    destruct H as [Ha Hl]. cbn [app split_on]. rewrite Ha, IH by exact Hl.
    reflexivity.
Qed.

Lemma split_on_none (c : ascii) (l : str) :
  has_char c l = false -> split_on c l = [l].
Proof.
  intros H. induction l as [|a l IH]; [reflexivity|].
  unfold has_char in *. cbn [existsb] in H. apply orb_false_iff in H.
  destruct H as [Ha Hl]. cbn [split_on]. rewrite Ha, IH by exact Hl. reflexivity.
Qed.

Lemma unlines_app (a b : list str) : unlines (a ++ b) = unlines a ++ unlines b.
Proof. unfold unlines. now rewrite map_app, concat_app. Qed.

Lemma split_on_unlines (init : list str) (lst : str) :
  Forall (fun l => has_char newline l = false) init ->
  has_char newline lst = false ->
  split_on newline (unlines init ++ lst) = init ++ [lst].
Proof.
  intros Hi Hl. induction Hi as [|l init Hn _ IH].
  - cbn [unlines map concat app]. now apply split_on_none.
  - change (unlines (l :: init)) with ((l ++ [newline]) ++ unlines init).
    rewrite <- !app_assoc. cbn [app]. rewrite split_on_cons by exact Hn.
    now rewrite IH.
Qed.

(** Stripping the output and splitting it at the newlines. *)
Lemma strip_split_unlines (c y : ascii) (s t : str) (lines : list str) :
  isspace c = false -> isspace y = false ->
  Forall (fun l => has_char newline l = false) ((c :: s) :: lines ++ [t ++ [y]]) ->
  stdout_lines (unlines ((c :: s) :: lines ++ [t ++ [y]])) =
  (c :: s) :: lines ++ [t ++ [y]].
Proof.
  intros Hc Hy Hall. unfold stdout_lines.
  assert (E : strip (unlines ((c :: s) :: lines ++ [t ++ [y]])) =
              unlines ((c :: s) :: lines) ++ t ++ [y]).
  { unfold strip_by.
    change (unlines ((c :: s) :: lines ++ [t ++ [y]]))
      with (c :: (s ++ [newline]) ++ unlines (lines ++ [t ++ [y]])).
    rewrite lstrip_head by exact Hc.
    change (c :: (s ++ [newline]) ++ unlines (lines ++ [t ++ [y]]))
      with (unlines ((c :: s) :: lines ++ [t ++ [y]])).
    rewrite app_comm_cons, unlines_app.
    change (unlines [t ++ [y]]) with (((t ++ [y]) ++ [newline]) ++ []).
    rewrite app_nil_r, <- !app_assoc. cbn [app].
    rewrite (app_assoc _ t), rstrip_app_nonspace by exact Hy.
    change (rstrip [newline]) with (@nil ascii).
    now rewrite <- app_assoc. }
  rewrite E. rewrite app_comm_cons in Hall. apply Forall_app in Hall.
  destruct Hall as [Hi Hl]. inversion Hl; subst.
  now rewrite split_on_unlines.
Qed.

(** X11: the lines the tool printed are the lines the loop reads: when
    the output starts and ends with a character that is no whitespace,
    stripping it and splitting it at the newlines gives back the lines,
    each ended by a newline in the output, from the first to the last. *)
Theorem stdout_lines_unlines (c y : ascii) (s t : str) (lines : list str) :
  isspace c = false -> isspace y = false ->
  Forall (fun l => has_char newline l = false) ((c :: s) :: lines ++ [t ++ [y]]) ->
  stdout_lines (unlines ((c :: s) :: lines ++ [t ++ [y]])) =
  (c :: s) :: lines ++ [t ++ [y]].
Proof. exact (strip_split_unlines c y s t lines). Qed.

Lemma stdout_lines_unlines_witness :
  stdout_lines (unlines [line_dt1; []; line_lat1; line_alt1]) =
  [line_dt1; []; line_lat1; line_alt1].
Proof.
  apply (stdout_lines_unlines "G" "m"
           (lit "PS Date/Time                   : 2025:06:30 02:13:56.9Z")
           (lit "GPS Altitude                    : 12.5 ")
           [[]; line_lat1]); [reflexivity|reflexivity|].
  repeat (constructor; [reflexivity|]). constructor.
Defined.

(** ** [extract_gps_data] on well-formed output *)

(** X12: [extract_gps_data] on a run of the tool that succeeds with
    well-formed output (lines that start no point, then whole groups, the
    text starting and ending with a character that is no whitespace):
    nothing is raised, the two messages are the name of the file and the
    number of groups, and the points returned are the points of the
    groups, in order. *)
Theorem extract_gps_data_groups (lrv_file_path stderr : str)
    (noise : list str) (sgs : list seg_input)
    (c y : ascii) (s t : str) (mid : list str) :
  Forall (fun line => is_datetime_marker line = false \/ bad_datetime_line line) noise ->
  Forall seg_ok sgs ->
  noise ++ flat_map seg_lines sgs = (c :: s) :: mid ++ [t ++ [y]] ->
  isspace c = false -> isspace y = false ->
  Forall (fun l => has_char newline l = false) (noise ++ flat_map seg_lines sgs) ->
  exists r,
    extract_gps_data lrv_file_path
      (Completed 0 (unlines (noise ++ flat_map seg_lines sgs)) stderr) =
      ([MsgAnalyzing (basename lrv_file_path); MsgExtracted (length sgs)], r) /\
    points_of r = map point_of_seg sgs.
Proof.
  intros Hn Hs Hshape Hc Hy Hnl.
  destruct (segment_of_groups noise sgs Hn Hs) as (r & E & R & P).
  exists r. split; [|exact P].
  unfold extract_gps_data. cbn [Z.eqb negb].
  rewrite Hshape in Hnl |- *. rewrite strip_split_unlines by assumption.
  rewrite <- Hshape, E, R, length_seq. reflexivity.
Qed.

Lemma extract_gps_data_groups_witness :
  exists r,
    extract_gps_data (lit "DCIM/VID_001.lrv")
      (Completed 0
         (unlines ([lit "File Name : VID_001.lrv"] ++
                   flat_map seg_lines
                     [MkSeg line_dt1 time1 [line_alt1];
                      MkSeg line_dt2 time2 [line_spd2]])) []) =
      ([MsgAnalyzing (lit "VID_001.lrv"); MsgExtracted 2], r) /\
    points_of r = [MkPoint time1 0 0 12.5 0 0; MkPoint time2 0 0 0 2.5 0].
Proof.
  apply (extract_gps_data_groups (lit "DCIM/VID_001.lrv") []
           [lit "File Name : VID_001.lrv"]
           [MkSeg line_dt1 time1 [line_alt1]; MkSeg line_dt2 time2 [line_spd2]]
           "F" "5" (lit "ile Name : VID_001.lrv")
           (lit "GPS Speed                       : 2.")
           [line_dt1; line_alt1; line_dt2]).
  - constructor; [left; reflexivity|constructor].
  - constructor; [|constructor; [|constructor]].
    + split; [exact sample_dt1|]. split; [|reflexivity].
      constructor; [exact I|constructor].
    + split; [exact sample_dt2|]. split; [|reflexivity].
      constructor; [exact I|constructor].
  - reflexivity.
  - reflexivity.
  - reflexivity.
  - repeat (constructor; [reflexivity|]). constructor.
Defined.

(** ** [find_lrv_files] *)

Lemma str_leb_total (a b : str) : str_leb a b = false -> str_leb b a = true.
Proof.
  revert b. induction a as [|x a IH]; intros [|y b]; cbn [str_leb]; try congruence.
  destruct (code x <? code y)%nat eqn:E1; [discriminate|].
  destruct (code y <? code x)%nat eqn:E2; [reflexivity|]. apply IH.
Qed.

Lemma str_leb_trans (a b c : str) :
  str_leb a b = true -> str_leb b c = true -> str_leb a c = true.
Proof.
  revert b c. induction a as [|x a IH]; intros [|y b] [|z c]; cbn [str_leb];
    try congruence.
  destruct (code x <? code y)%nat eqn:E1, (code y <? code z)%nat eqn:E2;
    destruct (code y <? code x)%nat eqn:E3; destruct (code z <? code y)%nat eqn:E4;
    destruct (code x <? code z)%nat eqn:E5; destruct (code z <? code x)%nat eqn:E6;
    try congruence;
    rewrite ?Nat.ltb_lt, ?Nat.ltb_ge in *; try lia.
  apply IH.
Qed.

Lemma insert_sorted_In (x y : str) (l : list str) :
  In y (insert_sorted x l) <-> y = x \/ In y l.
Proof.
  induction l as [|z l IH]; cbn [insert_sorted In]; [intuition|].
  destruct (str_leb x z); cbn [In]; [intuition|]. rewrite IH. intuition.
Qed.

Lemma insert_sorted_sorted (x : str) (l : list str) :
  StronglySorted (fun a b => str_leb a b = true) l ->
  StronglySorted (fun a b => str_leb a b = true) (insert_sorted x l).
Proof.
  induction 1 as [|z l Hs IH Hz]; cbn [insert_sorted].
  - repeat constructor.
  - destruct (str_leb x z) eqn:E.
    + constructor; [now constructor|]. constructor; [exact E|].
      rewrite List.Forall_forall in *. intros b Hb. eapply str_leb_trans; eauto.
    + constructor; [exact IH|]. rewrite List.Forall_forall in *.
      intros b Hb. apply insert_sorted_In in Hb. destruct Hb as [->|Hb]; [|auto].
      now apply str_leb_total.
Qed.

Lemma sorted_sorted (l : list str) :
  StronglySorted (fun a b => str_leb a b = true) (sorted l).
Proof.
  induction l as [|x l IH]; cbn [sorted fold_right]; [constructor|].
  now apply insert_sorted_sorted.
Qed.

Lemma sorted_In (y : str) (l : list str) : In y (sorted l) <-> In y l.
Proof.
  induction l as [|x l IH]; cbn [sorted fold_right In]; [tauto|].
  rewrite insert_sorted_In. fold (sorted l). rewrite IH. intuition.
Qed.

Lemma sorted_length (l : list str) : length (sorted l) = length l.
Proof.
  induction l as [|x l IH]; [reflexivity|]. cbn [sorted fold_right length].
  fold (sorted l). rewrite <- IH. generalize (sorted l). intros m.
  induction m as [|z m IHm]; [reflexivity|]. cbn [insert_sorted].
  destruct (str_leb x z); cbn [length]; [reflexivity|]. now rewrite IHm.
Qed.

(** X13: the list of [find_lrv_files] is in ascending order of the
    paths, compared character by character, and holds the paths of the
    entries of the walk whose file name ends in [.lrv], each as often as
    the walk lists it, and nothing else. *)
Theorem find_lrv_files_sorted (w : world) (folder_path : str) :
  StronglySorted (fun a b => str_leb a b = true) (find_lrv_files w folder_path) /\
  (forall p, In p (find_lrv_files w folder_path) <->
             exists name, In (name, p) (walk w folder_path) /\ is_lrv name = true) /\
  length (find_lrv_files w folder_path) =
    length (List.filter (fun e => is_lrv (fst e)) (walk w folder_path)).
Proof.
  unfold find_lrv_files. split; [apply sorted_sorted|]. split.
  - intros p. rewrite sorted_In, in_map_iff. split.
    + intros ([name q] & <- & H). apply List.filter_In in H. now exists name.
    + intros (name & H & Hl). exists (name, p). split; [reflexivity|].
      apply List.filter_In. now split.
  - now rewrite sorted_length, length_map.
Qed.

Lemma find_lrv_files_sorted_witness :
  In (lit "DCIM/VID_002.LRV") (find_lrv_files world_with_gps (lit "DCIM")).
Proof.
  apply (proj1 (proj2 (find_lrv_files_sorted world_with_gps (lit "DCIM")))).
  exists (lit "VID_002.LRV"). split; [left; reflexivity|reflexivity].
Defined.

(** ** The extension of a file name *)

Lemma starts_with_iff (p s : str) :
  starts_with p s = true <-> exists rest, s = p ++ rest.
Proof.
  revert s. induction p as [|a p IH]; intros s; cbn [starts_with].
  - split; [now exists s|reflexivity].
  - destruct s as [|b s]; [split; [discriminate|intros [r H]; discriminate]|].
    rewrite andb_true_iff, chr_eqb_eq, IH. split.
    + intros [-> [r ->]]. now exists r.
    + intros [r [= -> ->]]. split; [reflexivity|now exists r].
Qed.

Lemma ends_with_iff (p s : str) :
  ends_with p s = true <-> exists stem, s = stem ++ p.
Proof.
  unfold ends_with. rewrite starts_with_iff. split.
  - intros [r H]. exists (rev r). apply (f_equal (@rev ascii)) in H.
    now rewrite rev_involutive, rev_app_distr, rev_involutive in H.
  - intros [stem ->]. exists (rev stem). now rewrite rev_app_distr.
Qed.

(** X14: a name counts as an LRV file exactly when it ends in four
    characters that are [.lrv] once put in lower case: the test looks at
    the end of the name only and at no letter's case, so [.LRV] and [.Lrv]
    count, and so does a name that is the extension alone. *)
Theorem is_lrv_extension (name : str) :
  is_lrv name = true <->
  exists stem ext, name = stem ++ ext /\ lower ext = lit ".lrv".
Proof.
  unfold is_lrv. rewrite ends_with_iff. unfold lower. split.
  - intros [stem' H]. apply map_eq_app in H.
    destruct H as (stem & ext & -> & _ & H). now exists stem, ext.
  - intros (stem & ext & -> & H). exists (map lower_chr stem).
    now rewrite map_app, H.
Qed.

Lemma is_lrv_extension_witness : is_lrv (lit "VID_002.LRV") = true.
Proof.
  apply (proj2 (is_lrv_extension (lit "VID_002.LRV"))).
  exists (lit "VID_002"), (lit ".LRV"). split; reflexivity.
Defined.

(** ** The name of a file in the messages and in the rows *)

Lemma split_on_nonempty (c : ascii) (s : str) : split_on c s <> [].
Proof.
  induction s as [|x s IH]; [discriminate|]. cbn [split_on].
  destruct (chr_eqb c x); [discriminate|]. now destruct (split_on c s).
Qed.

Lemma split_on_app (c : ascii) (a b : str) :
  exists h, h <> [] /\ split_on c (a ++ c :: b) = h ++ split_on c b.
Proof.
  induction a as [|x a (h & Hh & IH)]; cbn [app split_on].
  - rewrite chr_eqb_refl. now exists [[]].
  - rewrite IH. destruct (chr_eqb c x).
    + now exists ([] :: h).
    + destruct h as [|h1 ht]; [congruence|]. cbn [app]. now exists ((x :: h1) :: ht).
Qed.

Lemma split_on_last (c : ascii) (a b : str) :
  last (split_on c (a ++ c :: b)) = last (split_on c b).
Proof.
  destruct (split_on_app c a b) as (h & _ & ->).
  pose proof (split_on_nonempty c b) as Hne.
  destruct (split_on c b) as [|y l] using rev_ind; [congruence|].
  now rewrite app_assoc, !last_snoc.
Qed.

Lemma basename_last (path : str) :
  Some (basename path) = last (split_on "/" path) \/
  (split_on "/" path = [] /\ basename path = []).
Proof.
  unfold basename. destruct (split_on "/" path) as [|h t] using rev_ind.
  - right. now split.
  - left. rewrite rev_app_distr, last_snoc. reflexivity.
Qed.

(** X15: the base name of a path is what follows its last slash: the
    name a file has in its directory, whatever the directory.  The
    messages and the first column of the rows name a file by it, so two
    files of the same name in two directories are named alike. *)
Theorem basename_join (root name : str) :
  has_char "/" name = false ->
  basename (root ++ "/"%char :: name) = name /\ basename name = name.
Proof.
  intros H.
  assert (E : last (split_on "/" name) = Some name).
  { now rewrite split_on_none. }
  split.
  - destruct (basename_last (root ++ "/"%char :: name)) as [B|[B _]].
    + rewrite split_on_last, E in B. congruence.
    + apply (f_equal last) in B. rewrite split_on_last, E in B. discriminate.
  - unfold basename. now rewrite split_on_none.
Qed.

Lemma basename_join_witness :
  basename (lit "DCIM/Camera01" ++ "/"%char :: lit "VID_001.lrv") = lit "VID_001.lrv" /\
  basename (lit "VID_001.lrv") = lit "VID_001.lrv".
Proof.
  exact (basename_join (lit "DCIM/Camera01") (lit "VID_001.lrv") eq_refl).
Defined.

(** ** The references of a result *)

Lemma points_of_length (r : point_list) :
  Forall (fun l => (l < length (pl_store r))%nat) (pl_refs r) ->
  length (points_of r) = length (pl_refs r).
Proof.
  unfold points_of. induction 1 as [|l refs Hl _ IH]; [reflexivity|].
  cbn [omap list_omap]. destruct (lookup_lt_is_Some_2 _ _ Hl) as [p E].
  unfold loc in *. rewrite E. cbn [length]. now f_equal.
Qed.

Lemma segment_refs (lines : list str) (r : point_list) :
  segment lines = Ok r ->
  Forall (fun l => (l < length (pl_store r))%nat) (pl_refs r).
Proof.
  unfold segment. destruct (for_lines init_state lines) as [st|e] eqn:E; [|discriminate].
  cbn [rbind]. intros [= <-]. cbn [pl_store pl_refs].
  apply (wf_save_current st), (for_lines_wf lines init_state st wf_init E).
Qed.

Lemma extracted_refs (w : world) (f : str) :
  Forall (fun l => (l < length (pl_store (extracted w f)))%nat)
         (pl_refs (extracted w f)).
Proof.
  unfold extracted, extract_gps_data.
  destruct (run_exiftool w f) as [rc out err| |]; cbn [snd]; try constructor.
  destruct (negb (rc =? 0)); [constructor|].
  destruct (segment (stdout_lines out)) as [r|e] eqn:E; cbn [snd]; [|constructor].
  now apply segment_refs with (stdout_lines out).
Qed.

Lemma has_points_rows (w : world) (f : str) :
  has_points w f = true <-> rows_of w f <> [].
Proof.
  unfold has_points, rows_of.
  generalize (points_of_length (extracted w f) (extracted_refs w f)).
  destruct (pl_refs (extracted w f)), (points_of (extracted w f));
    cbn; intros L; split; try congruence.
  intros H. now destruct H.
Qed.

(** ** [main] *)

Lemma forallb_print (msgs : list message) : forallb is_print (map Print msgs) = true.
Proof. induction msgs; cbn; auto. Qed.

(** The loop over the files: it only prints, and keeps the files that
    yield a point, in order. *)
Lemma process_files_kept (w : world) (files : list str) :
  forallb is_print (fst (process_files w files)) = true /\
  snd (process_files w files) =
    map (fun f => MkFileData (basename f) (extracted w f))
        (List.filter (has_points w) files).
Proof.
  induction files as [|f files [IH1 IH2]]; [now split|].
  cbn [process_files List.filter]. unfold has_points at 1.
  assert (Er : extracted w f = snd (extract_gps_data f (run_exiftool w f)))
    by reflexivity.
  destruct (extract_gps_data f (run_exiftool w f)) as [msgs r].
  destruct (process_files w files) as [evs all_data]. cbn [fst snd] in *.
  rewrite Er. split.
  - now rewrite forallb_app, forallb_print, IH1.
  - destruct (pl_refs r); [exact IH2|]. cbn [map]. now rewrite IH2, Er.
Qed.

Lemma csv_rows_kept (w : world) (files : list str) :
  csv_rows (map (fun f => MkFileData (basename f) (extracted w f))
                (List.filter (has_points w) files)) =
  flat_map (rows_of w) files.
Proof.
  unfold csv_rows. induction files as [|f files IH]; [reflexivity|].
  cbn [List.filter flat_map]. destruct (has_points w f) eqn:E.
  - cbn [map flat_map filename gps_points]. now rewrite IH.
  - rewrite IH. replace (rows_of w f) with (@nil csv_row); [reflexivity|].
    destruct (rows_of w f) eqn:R; [reflexivity|].
    assert (H : has_points w f = true) by (apply has_points_rows; congruence).
    congruence.
Qed.

Lemma filter_print (evs : list event) :
  forallb is_print evs = true ->
  List.filter (fun e => negb (is_print e)) evs = [].
Proof.
  induction evs as [|e evs IH]; [reflexivity|]. cbn [forallb List.filter].
  intros H. apply andb_true_iff in H. destruct H as [-> H]. now apply IH.
Qed.

Lemma not_In_print (evs : list event) (f : str) (rows : list csv_row) :
  forallb is_print evs = true -> ~ In (WriteFile f rows) evs.
Proof.
  intros H Hin. rewrite forallb_forall in H. apply H in Hin. discriminate.
Qed.

(** What [main] does once the folder exists and the tool is there. *)
Lemma main_run (w : world) (prog folder_path : str) (more : list str) :
  path_exists w folder_path = true -> exiftool_available w = true ->
  exists prints1 prints2,
    forallb is_print prints1 = true /\ forallb is_print prints2 = true /\
    main (prog :: folder_path :: more) w =
      match lrv_inputs w folder_path with
      | [] => (prints1, 1)
      | _ :: _ =>
          if existsb (has_points w) (lrv_inputs w folder_path)
          then (prints1 ++
                WriteFile (output_name (prog :: folder_path :: more))
                          (flat_map (rows_of w) (lrv_inputs w folder_path)) ::
                prints2, 0)
          else (prints1, 0)
      end.
Proof.
  intros Hp He. unfold main, lrv_inputs, output_name. rewrite Hp, He. cbn [negb nth].
  set (out := match more with [] => lit "lrv_gps_data.csv" | f :: _ => f end).
  assert (Eo : nth 0 more (lit "lrv_gps_data.csv") = out) by now destruct more.
  rewrite Eo. clear Eo.
  set (sel := if isfile w folder_path && is_lrv folder_path
              then ([Print (MsgSingleFile folder_path)], [folder_path])
              else ([Print (MsgSearching folder_path)], find_lrv_files w folder_path)).
  assert (Hsel : forallb is_print (fst sel) = true /\
                 snd sel = if isfile w folder_path && is_lrv folder_path
                           then [folder_path] else find_lrv_files w folder_path).
  { subst sel. now destruct (isfile w folder_path && is_lrv folder_path). }
  destruct sel as [ev1 lrv_files]. cbn [fst snd] in Hsel. destruct Hsel as [H1 <-].
  destruct lrv_files as [|f fs].
  { exists (ev1 ++ [Print MsgNoLrvFiles]), []. repeat split.
    now rewrite forallb_app, H1. }
  destruct (process_files_kept w (f :: fs)) as [H2 E].
  destruct (process_files w (f :: fs)) as [ev2 all_data]. cbn [fst snd] in H2, E.
  assert (Hex : existsb (has_points w) (f :: fs) =
                match all_data with [] => false | _ :: _ => true end).
  { rewrite E. clear. induction (f :: fs) as [|x l IH]; [reflexivity|].
    cbn [existsb List.filter]. destruct (has_points w x); [reflexivity|exact IH]. }
  rewrite Hex. destruct all_data as [|fd ds].
  - exists ((ev1 ++ [Print (MsgFound (length (f :: fs)))] ++ ev2) ++ [Print MsgNoGpsData]), [].
    repeat split. rewrite !forallb_app, H1, H2. reflexivity.
  - exists (ev1 ++ [Print (MsgFound (length (f :: fs)))] ++ ev2 ++
            [Print (MsgCsvOutput out)]),
           [Print (MsgTotalPoints (length (csv_rows (fd :: ds))));
            Print (MsgDone (length (fd :: ds)) (length (f :: fs)) out)].
    split; [|split; [reflexivity|]].
    + rewrite !forallb_app, H1, H2. reflexivity.
    + unfold write_csv. rewrite <- csv_rows_kept, <- E.
      rewrite <- !app_assoc. reflexivity.
Qed.

(** X16: a run that ends with exit status 1 has written no file: the
    four fatal paths of [main] only print. *)
Theorem main_failure_writes_nothing (argv : list str) (w : world) :
  snd (main argv w) = 1 -> forallb is_print (fst (main argv w)) = true.
Proof.
  destruct argv as [|prog [|folder_path more]]; [reflexivity|reflexivity|].
  destruct (path_exists w folder_path) eqn:Hp;
    [|unfold main; now rewrite Hp].
  destruct (exiftool_available w) eqn:He;
    [|unfold main; now rewrite Hp, He].
  destruct (main_run w prog folder_path more Hp He) as (p1 & p2 & H1 & H2 & ->).
  destruct (lrv_inputs w folder_path); [intros _; exact H1|].
  destruct (existsb _ _); discriminate.
Qed.

Lemma main_failure_writes_nothing_witness :
  forallb is_print
    (fst (main [lit "lrv_batch_analyzer.py"; lit "DCIM"]
            (MkWorld (fun _ => true) true (fun _ => false)
                     (fun _ => [(lit "VID_001.mp4", lit "DCIM/VID_001.mp4")])
                     (fun _ => Failed)))) = true.
Proof.
  apply main_failure_writes_nothing. reflexivity.
Defined.

(** X17: [main] writes at most one file.  When it writes, the file has
    the name given as second argument, or [lrv_gps_data.csv] when there is
    none, it holds at least one row, and the exit status is 0. *)
Theorem main_writes_once (argv : list str) (w : world) (f : str)
    (rows : list csv_row) :
  In (WriteFile f rows) (fst (main argv w)) ->
  snd (main argv w) = 0 /\ f = output_name argv /\ rows <> [] /\
  List.filter (fun e => negb (is_print e)) (fst (main argv w)) = [WriteFile f rows].
Proof.
  destruct argv as [|prog [|folder_path more]];
    [intros [H|[]]; discriminate|intros [H|[]]; discriminate|].
  destruct (path_exists w folder_path) eqn:Hp;
    [|unfold main; rewrite Hp; intros [H|[]]; discriminate].
  destruct (exiftool_available w) eqn:He;
    [|unfold main; rewrite Hp, He; intros [H|[]]; discriminate].
  destruct (main_run w prog folder_path more Hp He) as (p1 & p2 & H1 & H2 & ->).
  destruct (lrv_inputs w folder_path) as [|x l] eqn:El;
    [intros H; now apply not_In_print in H|].
  destruct (existsb (has_points w) (x :: l)) eqn:Ex;
    [|intros H; now apply not_In_print in H].
  assert (Hne : flat_map (rows_of w) (x :: l) <> []).
  { apply existsb_exists in Ex. destruct Ex as (y & Hy & Hpts).
    apply has_points_rows in Hpts. intros E.
    destruct (rows_of w y) as [|row rs] eqn:R; [congruence|].
    assert (Hin : In row (flat_map (rows_of w) (x :: l))).
    { apply in_flat_map. exists y. split; [exact Hy|]. rewrite R. now left. }
    now rewrite E in Hin. }
  cbn [fst snd]. intros H. apply in_app_or in H.
  destruct H as [H|[H|H]]; [now apply not_In_print in H| |now apply not_In_print in H].
  injection H as <- <-. split; [reflexivity|]. split; [reflexivity|].
  split; [exact Hne|].
  rewrite List.filter_app. cbn [List.filter is_print negb].
  now rewrite !filter_print by assumption.
Qed.

Lemma main_writes_once_witness :
  snd (main [lit "lrv_batch_analyzer.py"; lit "DCIM"; lit "out.csv"] world_with_gps) = 0 /\
  lit "out.csv" = output_name [lit "lrv_batch_analyzer.py"; lit "DCIM"; lit "out.csv"].
Proof.
  assert (Hin : In (WriteFile (lit "out.csv")
                      [(lit "VID_001.lrv",
                        MkPoint time1 (35 + 37 / 60 + 35.5 / 3600)
                                (139 + 44 / 60 + 28.5 / 3600) 0 0 0)])
                   (fst (main [lit "lrv_batch_analyzer.py"; lit "DCIM"; lit "out.csv"]
                           world_with_gps))).
  { vm_compute. do 7 right. left. reflexivity. }
  split.
  - exact (proj1 (main_writes_once _ _ _ _ Hin)).
  - exact (proj1 (proj2 (main_writes_once _ _ _ _ Hin))).
Defined.


